(** * Flight Status Client: the Lufthansa Open API client of
      [travel_buddy/tools/lufthansa_api.py]

    A shallow embedding of [LufthansaAPIClient]: the OAuth token cache, the
    authenticated request, the five flight operations and the response
    parsers, followed by the properties the specification states about them.

    Modelling choices, all visible in the definitions below:
    - Python objects decoded from JSON, and the dicts the client builds, are
      the inductive type [value]; a dict is the list of its items.
    - Numbers are integers: [time.time()] is read in whole seconds and the
      only arithmetic of the client is [expires_at - 60] and [now + expires_in].
      A JSON number with a fraction or an exponent is outside the model; an
      integer too large for a float makes the addition raise, as in Python.
    - The outside world (the clock and the HTTP provider) is an oracle [env];
      every request the client sends is appended to a log, so that "no auth
      call" and "one auth call before the data call" are statements about
      that log.
    - A Python exception is a value of [exn]; attribute and item writes done
      before an exception is raised stay in the state, as in Python.
    - [repr] of a [str] (quoting and escaping, used when a str nested in a
      list or dict is formatted) is a parameter of the development; so are
      [str.upper], [str.isdigit] and [str.strip], which the flight tools of
      [sub_agents/flight/tools.py] apply to their arguments.
    - [config.py] is a function of the process environment. *)

From Stdlib Require Import String Ascii List ZArith Bool Lia DecimalString.
Import ListNotations.

#[local] Open Scope string_scope.
#[local] Open Scope Z_scope.
#[local] Set Warnings "-register-all".

(* ================================================================= *)
(** ** Python values *)

Inductive value : Type :=
| PyNone
| PyBool (b : bool)
| PyInt (z : Z)
| PyStr (s : string)
| PyList (items : list value)
| PyDict (items : list (string * value)).

(** Python's truth value testing, as used by [if x], [not x] and [x and y]. *)
Definition truthy (v : value) : bool :=
  match v with
  | PyNone => false
  | PyBool b => b
  | PyInt z => negb (z =? 0)
  | PyStr s => negb (String.eqb s "")
  | PyList l => match l with [] => false | _ => true end
  | PyDict kvs => match kvs with [] => false | _ => true end
  end.

(** [isinstance(v, list)] *)
Definition isinstance_list (v : value) : bool :=
  match v with PyList _ => true | _ => false end.

(** [type(v).__name__] *)
Definition type_name (v : value) : string :=
  match v with
  | PyNone => "NoneType"
  | PyBool _ => "bool"
  | PyInt _ => "int"
  | PyStr _ => "str"
  | PyList _ => "list"
  | PyDict _ => "dict"
  end.

(** Values that cannot be dict keys. *)
Definition unhashable (v : value) : bool :=
  match v with PyList _ | PyDict _ => true | _ => false end.

(** The item stored under key [k]. *)
Fixpoint dict_get (k : string) (kvs : list (string * value)) : option value :=
  match kvs with
  | [] => None
  | (k', v) :: rest => if String.eqb k k' then Some v else dict_get k rest
  end.

Definition string_of_Z (z : Z) : string :=
  NilZero.string_of_int (Z.to_int z).

(* ================================================================= *)
(** ** Exceptions *)

Record http_response : Type := mk_response {
  status_code : Z;
  reason : string;
  url : string;
  text : string;
  (** what [response.json()] decodes; [None] when the body is not JSON *)
  json_body : option value;
  (** the message of the [JSONDecodeError] raised in that case *)
  json_error : string
}.

Inductive exn : Type :=
| HTTPError (msg : string) (response : http_response)
    (* requests.HTTPError, a requests.RequestException *)
| RequestException (msg : string)
    (* the other requests exceptions: ConnectionError, Timeout, and the
       JSONDecodeError of Response.json() *)
| RuntimeError (msg : string)
| KeyError (key : string)
| TypeError (msg : string)
| IndexError (msg : string)
| AttributeError (msg : string)
| OverflowError (msg : string).

(** [isinstance(e, requests.RequestException)] *)
Definition is_RequestException (e : exn) : bool :=
  match e with HTTPError _ _ | RequestException _ => true | _ => false end.

(** [isinstance(e, requests.HTTPError)] *)
Definition is_HTTPError (e : exn) : bool :=
  match e with HTTPError _ _ => true | _ => false end.

(** [isinstance(e, (KeyError, TypeError))] *)
Definition is_KeyError_or_TypeError (e : exn) : bool :=
  match e with KeyError _ | TypeError _ => true | _ => false end.

Inductive result (A : Type) : Type :=
| Ok (a : A)
| Raise (e : exn).
Arguments Ok {A} a.
Arguments Raise {A} e.

Module Pure.

(** Exception-passing for code without side effects (the parsers). *)
Definition bind {A B} (r : result A) (k : A -> result B) : result B :=
  match r with Ok a => k a | Raise e => Raise e end.

(** [try: body / except <caught> as e: handler e] *)
Definition try_except {A} (body : result A) (caught : exn -> bool)
    (handler : exn -> result A) : result A :=
  match body with
  | Ok a => Ok a
  | Raise e => if caught e then handler e else Raise e
  end.

End Pure.

Declare Scope pure_scope.
Delimit Scope pure_scope with pure.
Notation "x <- m ;; k" := (Pure.bind m (fun x => k))
  (at level 61, m at next level, right associativity) : pure_scope.

(** [obj.get(key, default)]: a dict method; any other object has no
    attribute [get]. *)
Definition py_get (obj : value) (key : string) (default : value) : result value :=
  match obj with
  | PyDict kvs =>
      match dict_get key kvs with Some v => Ok v | None => Ok default end
  | _ => Raise (AttributeError
                  ("'" ++ type_name obj ++ "' object has no attribute 'get'"))
  end.

(** [obj[key]] with a str key. *)
Definition py_getitem (obj : value) (key : string) : result value :=
  match obj with
  | PyDict kvs =>
      match dict_get key kvs with Some v => Ok v | None => Raise (KeyError key) end
  | PyList _ => Raise (TypeError "list indices must be integers or slices, not str")
  | PyStr _ => Raise (TypeError "string indices must be integers, not 'str'")
  | _ => Raise (TypeError ("'" ++ type_name obj ++ "' object is not subscriptable"))
  end.

(** [l[0]] for a list [l] *)
Definition list_getitem0 (l : list value) : result value :=
  match l with
  | x :: _ => Ok x
  | [] => Raise (IndexError "list index out of range")
  end.

(** The first integer that [float()] cannot convert: it rounds to 2^1024,
    past the largest double. *)
Definition float_int_limit : Z := 2 ^ 1024 - 2 ^ 970.

(** [x + n] for the clock reading [x], a float: [n] must be a number; an
    [int] is converted to float first, which fails when it is out of the
    range of doubles; [bool] is a subclass of [int]. *)
Definition py_add (x : Z) (n : value) : result Z :=
  match n with
  | PyInt z =>
      if Z.abs z <? float_int_limit then Ok (x + z)
      else Raise (OverflowError "int too large to convert to float")
  | PyBool b => Ok (x + (if b then 1 else 0))
  | _ => Raise (TypeError ("unsupported operand type(s) for +: 'float' and '"
                           ++ type_name n ++ "'"))
  end.

(* ================================================================= *)
(** ** The world: clock and HTTP provider *)

Record http_request : Type := mk_request {
  req_method : string;
  req_url : string;
  req_headers : list (string * string);
  req_data : list (string * string);             (* form-encoded body *)
  req_params : option (list (string * value));    (* query string *)
  req_timeout : Z
}.

Inductive http_outcome : Type :=
| Reply (response : http_response)
| NoReply (msg : string).   (* connection error or timeout *)

(** The oracle: the [n]-th reading of [time.time()], and what the network
    answers to a request given everything sent before it. *)
Record env : Type := mk_env {
  time_time : nat -> Z;
  http : list http_request -> http_request -> http_outcome
}.

(** The instance attributes of [LufthansaAPIClient]. *)
Record client : Type := mk_client {
  client_id : string;
  client_secret : string;
  base_url : string;
  auth_url : string;
  _access_token : value;
  _token_expires_at : Z
}.

(** [LufthansaAPIClient.__init__] *)
Definition __init__ (LUFTHANSA_CLIENT_ID LUFTHANSA_CLIENT_SECRET
    LUFTHANSA_API_BASE_URL LUFTHANSA_AUTH_URL : string) : client :=
  {| client_id := LUFTHANSA_CLIENT_ID;
     client_secret := LUFTHANSA_CLIENT_SECRET;
     base_url := LUFTHANSA_API_BASE_URL;
     auth_url := LUFTHANSA_AUTH_URL;
     _access_token := PyNone;
     _token_expires_at := 0 |}.

Record state : Type := mk_state {
  self : client;
  clock_reads : nat;              (* how often time.time() was called *)
  sent : list http_request        (* every request sent so far, oldest first *)
}.

(** Stateful computations that may raise. *)
Definition M (A : Type) : Type := env -> state -> result A * state.

Definition ret {A} (a : A) : M A := fun _ st => (Ok a, st).
Definition raise {A} (e : exn) : M A := fun _ st => (Raise e, st).
Definition bind {A B} (m : M A) (k : A -> M B) : M B :=
  fun w st =>
    match m w st with
    | (Ok a, st') => k a w st'
    | (Raise e, st') => (Raise e, st')
    end.
Definition lift {A} (r : result A) : M A := fun _ st => (r, st).

(** [try: body / except <caught> as e: handler e] *)
Definition try_except {A} (body : M A) (caught : exn -> bool)
    (handler : exn -> M A) : M A :=
  fun w st =>
    match body w st with
    | (Ok a, st') => (Ok a, st')
    | (Raise e, st') => if caught e then handler e w st' else (Raise e, st')
    end.

Declare Scope py_scope.
Delimit Scope py_scope with py.
Notation "x <- m ;; k" := (bind m (fun x => k))
  (at level 61, m at next level, right associativity) : py_scope.
Notation "m ;;; k" := (bind m (fun _ => k))
  (at level 61, right associativity) : py_scope.

Definition get_self : M client := fun _ st => (Ok (self st), st).

(** [self._access_token = tok] *)
Definition with_access_token (c : client) (tok : value) : client :=
  {| client_id := client_id c; client_secret := client_secret c;
     base_url := base_url c; auth_url := auth_url c;
     _access_token := tok;
     _token_expires_at := _token_expires_at c |}.

(** [self._token_expires_at = t] *)
Definition with_token_expires_at (c : client) (t : Z) : client :=
  {| client_id := client_id c; client_secret := client_secret c;
     base_url := base_url c; auth_url := auth_url c;
     _access_token := _access_token c;
     _token_expires_at := t |}.

Definition set_access_token (tok : value) : M unit :=
  fun _ st =>
    (Ok tt, {| self := with_access_token (self st) tok;
               clock_reads := clock_reads st; sent := sent st |}).

Definition set_token_expires_at (t : Z) : M unit :=
  fun _ st =>
    (Ok tt, {| self := with_token_expires_at (self st) t;
               clock_reads := clock_reads st; sent := sent st |}).

(** [time.time()] *)
Definition time_now : M Z :=
  fun w st =>
    (Ok (time_time w (clock_reads st)),
     {| self := self st; clock_reads := S (clock_reads st); sent := sent st |}).

(** [requests.request(...)] and [requests.post(...)]: the request goes out,
    then the provider answers or the transport fails. *)
Definition requests_request (req : http_request) : M http_response :=
  fun w st =>
    let st' := {| self := self st; clock_reads := clock_reads st;
                  sent := sent st ++ [req] |} in
    match http w (sent st) req with
    | Reply r => (Ok r, st')
    | NoReply msg => (Raise (RequestException msg), st')
    end.

(** [Response.raise_for_status()] of the requests library: statuses 400-499
    are client errors, 500-599 server errors, anything else passes. *)
Definition http_error_msg (r : http_response) : option string :=
  let tail := reason r ++ " for url: " ++ url r in
  if (400 <=? status_code r) && (status_code r <? 500)
  then Some (string_of_Z (status_code r) ++ " Client Error: " ++ tail)
  else if (500 <=? status_code r) && (status_code r <? 600)
  then Some (string_of_Z (status_code r) ++ " Server Error: " ++ tail)
  else None.

Definition raise_for_status (r : http_response) : M unit :=
  match http_error_msg r with
  | Some msg => raise (HTTPError msg r)
  | None => ret tt
  end.

(** [Response.json()] *)
Definition response_json (r : http_response) : M value :=
  match json_body r with
  | Some v => ret v
  | None => raise (RequestException (json_error r))
  end.

(* ================================================================= *)
(** ** Configuration ([config.py]) *)

(** [os.environ], after [load_dotenv()]. *)
Definition environ : Type := string -> option string.

(** The outcome of code that can only raise [ValueError]. *)
Inductive loaded (A : Type) : Type :=
| Loaded (a : A)
| ValueError (msg : string).
Arguments Loaded {A} a.
Arguments ValueError {A} msg.

(** The truth value of an optional str: [None] and [""] are false. *)
Definition str_truthy (v : option string) : bool :=
  match v with
  | Some s => negb (String.eqb s "")
  | None => false
  end.

(** [os.getenv(name, default)] *)
Definition os_getenv (env : environ) (name : string) (default : option string)
    : option string :=
  match env name with
  | Some v => Some v
  | None => default
  end.

(** [config.get_env_var] *)
Definition get_env_var (env : environ) (name : string)
    (default : option string) (required : bool) : loaded (option string) :=
  let value := os_getenv env name default in
  if required && negb (str_truthy value)
  then ValueError ("Required environment variable " ++ name ++ " is not set")
  else Loaded value.

(** The module-level names of [config.py]. *)
Record config : Type := mk_config {
  USE_VERTEX_AI : bool;
  GOOGLE_API_KEY : option string;
  GOOGLE_CLOUD_PROJECT : option string;
  GOOGLE_CLOUD_LOCATION : option string;
  LUFTHANSA_CLIENT_ID : option string;
  LUFTHANSA_CLIENT_SECRET : option string;
  ROOT_AGENT_MODEL : option string;
  SUB_AGENT_MODEL : option string;
  LUFTHANSA_API_BASE_URL : string;
  LUFTHANSA_AUTH_URL : string;
  AVIATIONSTACK_API_KEY : option string;
  AVIATIONSTACK_BASE_URL : string;
  LUFTHANSA_GROUP_AIRLINES : list string
}.

Definition and_then {A B} (r : loaded A) (k : A -> loaded B) : loaded B :=
  match r with
  | Loaded a => k a
  | ValueError msg => ValueError msg
  end.

Declare Scope config_scope.
Delimit Scope config_scope with config.
Notation "x <- m ;; k" := (and_then m (fun x => k))
  (at level 61, m at next level, right associativity) : config_scope.

(** The body of the module [config.py], run top to bottom. *)
Definition load_config (env : environ) : loaded config :=
  (flag <- get_env_var env "GOOGLE_GENAI_USE_VERTEXAI" (Some "0") false ;;
   let use_vertex_ai :=
     match flag with Some v => String.eqb v "1" | None => false end in
   google <-
     (if use_vertex_ai
      then
        project <- get_env_var env "GOOGLE_CLOUD_PROJECT" None true ;;
        location <- get_env_var env "GOOGLE_CLOUD_LOCATION" (Some "europe-west3") false ;;
        Loaded (None, project, location)
      else
        key <- get_env_var env "GOOGLE_API_KEY" None true ;;
        project <- get_env_var env "GOOGLE_CLOUD_PROJECT" None false ;;
        location <- get_env_var env "GOOGLE_CLOUD_LOCATION" (Some "europe-west3") false ;;
        Loaded (key, project, location)) ;;
   lufthansa_id <- get_env_var env "LUFTHANSA_CLIENT_ID" None true ;;
   lufthansa_secret <- get_env_var env "LUFTHANSA_CLIENT_SECRET" None true ;;
   root_model <- get_env_var env "ROOT_AGENT_MODEL" (Some "gemini-3.1-pro-preview") false ;;
   sub_model <- get_env_var env "SUB_AGENT_MODEL" (Some "gemini-3.1-pro-preview") false ;;
   aviationstack_key <- get_env_var env "AVIATIONSTACK_API_KEY" None false ;;
   Loaded {| USE_VERTEX_AI := use_vertex_ai;
             GOOGLE_API_KEY := fst (fst google);
             GOOGLE_CLOUD_PROJECT := snd (fst google);
             GOOGLE_CLOUD_LOCATION := snd google;
             LUFTHANSA_CLIENT_ID := lufthansa_id;
             LUFTHANSA_CLIENT_SECRET := lufthansa_secret;
             ROOT_AGENT_MODEL := root_model;
             SUB_AGENT_MODEL := sub_model;
             LUFTHANSA_API_BASE_URL := "https://api.lufthansa.com/v1";
             LUFTHANSA_AUTH_URL := "https://api.lufthansa.com/v1/oauth/token";
             AVIATIONSTACK_API_KEY := aviationstack_key;
             AVIATIONSTACK_BASE_URL := "https://api.aviationstack.com/v1";
             LUFTHANSA_GROUP_AIRLINES := ["LH"; "LX"; "OS"; "SN"; "EW"] |})%config.

(* ================================================================= *)
(** ** Python operations of the flight tools *)

(** [s.replace(" ", "")] *)
Fixpoint without_spaces (s : string) : string :=
  match s with
  | EmptyString => EmptyString
  | String c rest =>
      if Ascii.eqb c " " then without_spaces rest
      else String c (without_spaces rest)
  end.

(** [d[key] = v] on the items of a dict: an existing key keeps its place. *)
Fixpoint dict_set (key : string) (v : value) (kvs : list (string * value))
    : list (string * value) :=
  match kvs with
  | [] => [(key, v)]
  | (k, x) :: rest =>
      if String.eqb key k then (key, v) :: rest
      else (k, x) :: dict_set key v rest
  end.

(** [key in container] for a str [key]: a key of a dict, an element of a
    list, a substring of a str. *)
Definition py_in (key : string) (container : value) : result bool :=
  match container with
  | PyDict kvs =>
      Ok (match dict_get key kvs with Some _ => true | None => false end)
  | PyList l =>
      Ok (existsb (fun x => match x with
                            | PyStr s => String.eqb s key
                            | _ => false
                            end) l)
  | PyStr s =>
      Ok (match String.index 0 key s with Some _ => true | None => false end)
  | _ => Raise (TypeError ("argument of type '" ++ type_name container
                           ++ "' is not iterable"))
  end.

(** The [state] of a [ToolContext]; the argument [tool_context] of a tool is
    [None] or a context. *)
Definition tool_state : Type := list (string * value).

(* ================================================================= *)
(** ** Sample data *)

(** Python's [repr] on a str without quotes, backslashes or non-printable
    characters. *)
Definition repr_plain (s : string) : string := "'" ++ s ++ "'".

Definition sample_client : client :=
  __init__ "my-id" "my-secret"
    "https://api.lufthansa.com/v1" "https://api.lufthansa.com/v1/oauth/token".

(** A client that has just been constructed. *)
Definition new_state : state :=
  {| self := sample_client; clock_reads := 0; sent := [] |}.

(** A client holding the token "abc", good until 37000. *)
Definition holding_state : state :=
  {| self := with_token_expires_at
               (with_access_token sample_client (PyStr "abc")) 37000;
     clock_reads := 0; sent := [] |}.

Definition json_reply (status : Z) (phrase : string) (body : value)
    : http_response :=
  {| status_code := status; reason := phrase;
     url := "https://api.lufthansa.com/v1"; text := "{...}";
     json_body := Some body; json_error := "" |}.

(** A grant without [expires_in]. *)
Definition grant_reply : http_response :=
  json_reply 200 "OK"
    (PyDict [("access_token", PyStr "abc"); ("token_type", PyStr "bearer")]).

Definition not_found_reply : http_response :=
  {| status_code := 404; reason := "Not Found";
     url := "https://api.lufthansa.com/v1"; text := "Resource not found";
     json_body := None;
     json_error := "Expecting value: line 1 column 1 (char 0)" |}.

Definition server_error_reply : http_response :=
  {| status_code := 500; reason := "Internal Server Error";
     url := "https://api.lufthansa.com/v1"; text := "oops";
     json_body := None;
     json_error := "Expecting value: line 1 column 1 (char 0)" |}.

(** A world whose clock reads 1000, 1001, ..., whose auth endpoint grants
    "abc", and whose provider answers every data request with [data]. *)
Definition world (data : http_response) : env :=
  {| time_time := fun n => 1000 + Z.of_nat n;
     http := fun _ req =>
               if String.eqb (req_method req) "POST"
               then Reply grant_reply else Reply data |}.

(** A payload with the given [Flight] field. *)
Definition flights_payload (flight : value) : value :=
  PyDict [("FlightStatusResource",
           PyDict [("Flights", PyDict [("Flight", flight)])])].

Definition sample_flight : list (string * value) :=
  [("Departure", PyDict [("AirportCode", PyStr "HAM");
                         ("ScheduledTimeLocal",
                          PyDict [("DateTime", PyStr "2026-02-28T10:00")])]);
   ("Arrival", PyDict [("AirportCode", PyStr "JFK")]);
   ("MarketingCarrier", PyDict [("AirlineID", PyStr "LH");
                                ("FlightNumber", PyInt 456)]);
   ("FlightStatus", PyDict [("Code", PyStr "DL")])].

(** A flight whose status code is a list. *)
Definition flight_with_list_code : value :=
  PyDict [("FlightStatus", PyDict [("Code", PyList [])])].

(** A flight whose scheduled departure is a bare string instead of an
    object with a [DateTime]. *)
Definition flight_with_bare_time : value :=
  PyDict [("Departure", PyDict [("AirportCode", PyStr "HAM");
                                ("ScheduledTimeLocal", PyStr "2026-02-28T10:00")])].

(** A world like [world], with the given outcomes of the auth POST and of
    the data request. *)
Definition world_of (auth data : http_outcome) : env :=
  {| time_time := fun n => 1000 + Z.of_nat n;
     http := fun _ req =>
               if String.eqb (req_method req) "POST" then auth else data |}.

(** A grant of no token, with a lifetime already over. *)
Definition null_grant : http_response :=
  json_reply 200 "OK"
    (PyDict [("access_token", PyNone); ("expires_in", PyInt (-5))]).

(** A grant whose [expires_in] is a str. *)
Definition grant_with_text_lifetime : http_response :=
  json_reply 200 "OK"
    (PyDict [("access_token", PyStr "abc"); ("expires_in", PyStr "36000")]).

(** A successful answer without [access_token]. *)
Definition grant_without_token : http_response :=
  json_reply 200 "OK" (PyDict [("token_type", PyStr "bearer")]).

(** [str.upper], [str.isdigit] and [str.strip] on ASCII strings. *)
Definition ascii_upper_char (c : ascii) : ascii :=
  let n := nat_of_ascii c in
  if ((97 <=? n) && (n <=? 122))%nat then ascii_of_nat (n - 32) else c.

Fixpoint ascii_upper (s : string) : string :=
  match s with
  | EmptyString => EmptyString
  | String c rest => String (ascii_upper_char c) (ascii_upper rest)
  end.

Fixpoint all_digits (s : string) : bool :=
  match s with
  | EmptyString => true
  | String c rest =>
      ((48 <=? nat_of_ascii c) && (nat_of_ascii c <=? 57))%nat && all_digits rest
  end.

Definition ascii_isdigit (s : string) : bool :=
  negb (String.eqb s "") && all_digits s.

Definition is_space (c : ascii) : bool :=
  let n := nat_of_ascii c in
  ((n =? 32) || ((9 <=? n) && (n <=? 13)) || ((28 <=? n) && (n <=? 31)))%nat.

Fixpoint ascii_lstrip (s : string) : string :=
  match s with
  | EmptyString => EmptyString
  | String c rest => if is_space c then ascii_lstrip rest else s
  end.

Fixpoint ascii_rstrip (s : string) : string :=
  match s with
  | EmptyString => EmptyString
  | String c rest =>
      let rest' := ascii_rstrip rest in
      if String.eqb rest' "" && is_space c then EmptyString else String c rest'
  end.

Definition ascii_strip (s : string) : string := ascii_rstrip (ascii_lstrip s).

(** The record of [sample_flight], as [get_flight_status] returns it. *)
Definition sample_record : list (string * value) :=
  [("flight", PyInt 456);
   ("airline", PyStr "LH");
   ("status", PyStr "DL");
   ("status_description", PyStr "Delayed");
   ("departure", PyDict [("airport", PyStr "HAM");
                         ("terminal", PyStr "");
                         ("gate", PyStr "");
                         ("scheduled", PyStr "2026-02-28T10:00");
                         ("estimated", PyStr "");
                         ("actual", PyStr "")]);
   ("arrival", PyDict [("airport", PyStr "JFK");
                       ("terminal", PyStr "");
                       ("gate", PyStr "");
                       ("scheduled", PyStr "");
                       ("estimated", PyStr "");
                       ("actual", PyStr "")]);
   ("aircraft", PyDict [("code", PyStr ""); ("registration", PyStr "")])].

(** A tool context that already holds an item. *)
Definition sample_context : tool_state := [("user", PyStr "traveler")].

(** An environment with the variables of the default mode. *)
Definition sample_environ : environ :=
  fun name =>
    if String.eqb name "GOOGLE_API_KEY" then Some "key"
    else if String.eqb name "LUFTHANSA_CLIENT_ID" then Some "my-id"
    else if String.eqb name "LUFTHANSA_CLIENT_SECRET" then Some "my-secret"
    else None.

(* ================================================================= *)
(** ** The client *)

Section Client.

(** [repr(s)] for a str [s]: Python's quoting and escaping. *)
Variable repr_str : string -> string.

(** [repr(v)] *)
Fixpoint py_repr (v : value) : string :=
  match v with
  | PyNone => "None"
  | PyBool true => "True"
  | PyBool false => "False"
  | PyInt z => string_of_Z z
  | PyStr s => repr_str s
  | PyList l => "[" ++ String.concat ", " (map py_repr l) ++ "]"
  | PyDict kvs =>
      "{" ++ String.concat ", "
               (map (fun kv => let '(k, x) := kv in
                               repr_str k ++ ": " ++ py_repr x) kvs) ++ "}"
  end.

(** [str(v)], which is what an f-string applies to [{v}]. *)
Definition py_str (v : value) : string :=
  match v with
  | PyStr s => s
  | _ => py_repr v
  end.

(** [str(e)] for an exception. *)
Definition exn_str (e : exn) : string :=
  match e with
  | HTTPError msg _ => msg
  | RequestException msg => msg
  | RuntimeError msg => msg
  | KeyError key => repr_str key
  | TypeError msg => msg
  | IndexError msg => msg
  | AttributeError msg => msg
  | OverflowError msg => msg
  end.

(** The POST of the client-credentials grant. *)
Definition auth_request (c : client) : http_request :=
  {| req_method := "POST";
     req_url := auth_url c;
     req_headers := [("Content-Type", "application/x-www-form-urlencoded")];
     req_data := [("client_id", client_id c);
                  ("client_secret", client_secret c);
                  ("grant_type", "client_credentials")];
     req_params := None;
     req_timeout := 10 |}.

(** The refresh path of [_get_access_token]: everything after the validity
    check. *)
Definition refresh_access_token : M value :=
  (try_except
     (c <- get_self ;;
      response <- requests_request (auth_request c) ;;
      raise_for_status response ;;;
      token_data <- response_json response ;;
      tok <- lift (py_getitem token_data "access_token") ;;
      set_access_token tok ;;;
      expires_in <- lift (py_get token_data "expires_in" (PyInt 36000)) ;;
      now <- time_now ;;
      expires_at <- lift (py_add now expires_in) ;;
      set_token_expires_at expires_at ;;;
      c' <- get_self ;;
      ret (_access_token c'))
     is_RequestException
     (fun e => raise (RuntimeError
                        ("Lufthansa API authentication failed: " ++ exn_str e))))%py.

(** [LufthansaAPIClient._get_access_token]. The [and] short-circuits: the
    clock is read only when a token is held. *)
Definition _get_access_token : M value :=
  (c <- get_self ;;
   if truthy (_access_token c)
   then
     now <- time_now ;;
     if now <? _token_expires_at c - 60
     then ret (_access_token c)
     else refresh_access_token
   else refresh_access_token)%py.

(** The request [_make_request] builds for a token. *)
Definition data_request (c : client) (method endpoint : string)
    (params : option (list (string * value))) (token : value) : http_request :=
  {| req_method := method;
     req_url := base_url c ++ endpoint;
     req_headers := [("Authorization", "Bearer " ++ py_str token);
                     ("Accept", "application/json")];
     req_data := [];
     req_params := params;
     req_timeout := 15 |}.

(** [LufthansaAPIClient._make_request]. Both handlers log and re-raise. *)
Definition _make_request (method endpoint : string)
    (params : option (list (string * value))) : M value :=
  (token <- _get_access_token ;;
   c <- get_self ;;
   try_except
     (response <- requests_request (data_request c method endpoint params token) ;;
      raise_for_status response ;;;
      response_json response)
     is_RequestException
     (fun e => raise e))%py.

(* ----------------------------------------------------------------- *)
(** *** Response parsers *)

Definition status_map : list (string * string) :=
  [("CD", "Cancelled");
   ("DP", "Departed");
   ("LD", "Landed");
   ("RT", "Rerouted");
   ("DV", "Diverted");
   ("HD", "On Hold");
   ("FE", "Flight Early");
   ("NI", "Next Information");
   ("OT", "On Time");
   ("DL", "Delayed");
   ("NO", "No Status")].

Fixpoint status_map_get (code : string) (table : list (string * string))
    : option string :=
  match table with
  | [] => None
  | (k, d) :: rest => if String.eqb code k then Some d else status_map_get code rest
  end.

(** [LufthansaAPIClient._get_status_description]. The default is formatted
    first; then [dict.get] hashes the key, which fails for a list or dict;
    a key that is not a str equals none of the table's keys. *)
Definition _get_status_description (code : value) : result string :=
  let default := "Unknown (" ++ py_str code ++ ")" in
  if unhashable code
  then Raise (TypeError ("unhashable type: '" ++ type_name code ++ "'"))
  else
    match code with
    | PyStr c =>
        match status_map_get c status_map with
        | Some d => Ok d
        | None => Ok default
        end
    | _ => Ok default
    end.

(** [obj.get(k1, {}).get(k2, default)] *)
Definition py_get2 (obj : value) (k1 k2 : string) (default : value)
    : result value :=
  (inner <- py_get obj k1 (PyDict []) ;;
   py_get inner k2 default)%pure.

(** Lines 313-343 of [_parse_flight_status]: the flat record of one flight,
    its items evaluated in source order. *)
Definition flight_status_record (flight : value) : result value :=
  (departure <- py_get flight "Departure" (PyDict []) ;;
   arrival <- py_get flight "Arrival" (PyDict []) ;;
   status <- py_get flight "FlightStatus" (PyDict []) ;;
   equipment <- py_get flight "Equipment" (PyDict []) ;;
   r_flight <- py_get2 flight "MarketingCarrier" "FlightNumber" (PyStr "") ;;
   r_airline <- py_get2 flight "MarketingCarrier" "AirlineID" (PyStr "") ;;
   r_status <- py_get status "Code" (PyStr "unknown") ;;
   code <- py_get status "Code" (PyStr "") ;;
   r_description <- _get_status_description code ;;
   d_airport <- py_get departure "AirportCode" (PyStr "") ;;
   d_terminal <- py_get2 departure "Terminal" "Name" (PyStr "") ;;
   d_gate <- py_get2 departure "Terminal" "Gate" (PyStr "") ;;
   d_scheduled <- py_get2 departure "ScheduledTimeLocal" "DateTime" (PyStr "") ;;
   d_estimated <- py_get2 departure "EstimatedTimeLocal" "DateTime" (PyStr "") ;;
   d_actual <- py_get2 departure "ActualTimeLocal" "DateTime" (PyStr "") ;;
   a_airport <- py_get arrival "AirportCode" (PyStr "") ;;
   a_terminal <- py_get2 arrival "Terminal" "Name" (PyStr "") ;;
   a_gate <- py_get2 arrival "Terminal" "Gate" (PyStr "") ;;
   a_scheduled <- py_get2 arrival "ScheduledTimeLocal" "DateTime" (PyStr "") ;;
   a_estimated <- py_get2 arrival "EstimatedTimeLocal" "DateTime" (PyStr "") ;;
   a_actual <- py_get2 arrival "ActualTimeLocal" "DateTime" (PyStr "") ;;
   e_code <- py_get equipment "AircraftCode" (PyStr "") ;;
   e_registration <- py_get equipment "AircraftRegistration" (PyStr "") ;;
   Ok (PyDict
         [("flight", r_flight);
          ("airline", r_airline);
          ("status", r_status);
          ("status_description", PyStr r_description);
          ("departure", PyDict [("airport", d_airport);
                                ("terminal", d_terminal);
                                ("gate", d_gate);
                                ("scheduled", d_scheduled);
                                ("estimated", d_estimated);
                                ("actual", d_actual)]);
          ("arrival", PyDict [("airport", a_airport);
                              ("terminal", a_terminal);
                              ("gate", a_gate);
                              ("scheduled", a_scheduled);
                              ("estimated", a_estimated);
                              ("actual", a_actual)]);
          ("aircraft", PyDict [("code", e_code);
                               ("registration", e_registration)])]))%pure.

(** The first two lines of both parsers (304-305 and 352-353):
    [response.get("FlightStatusResource", {})] and
    [flight_data.get("Flights", {}).get("Flight", [])]. *)
Definition flights_of (response : value) : result value :=
  (flight_data <- py_get response "FlightStatusResource" (PyDict []) ;;
   py_get2 flight_data "Flights" "Flight" (PyList []))%pure.

(** The [try] suite of [_parse_flight_status]. *)
Definition _parse_flight_status_try (response : value) : result value :=
  (flights <- flights_of response ;;
   if negb (truthy flights)
   then Ok (PyDict [("error", PyStr "No flight data in response")])
   else
     flight <- match flights with
               | PyList l => list_getitem0 l
               | _ => Ok flights
               end ;;
     flight_status_record flight)%pure.

(** [LufthansaAPIClient._parse_flight_status] *)
Definition _parse_flight_status (response : value) : result value :=
  Pure.try_except (_parse_flight_status_try response)
    is_KeyError_or_TypeError
    (fun e => Ok (PyDict
                    [("error", PyStr ("Failed to parse flight status: " ++ exn_str e));
                     ("raw", response)])).

(** [LufthansaAPIClient._parse_single_flight] *)
Definition _parse_single_flight (flight : value) : result value :=
  (departure <- py_get flight "Departure" (PyDict []) ;;
   arrival <- py_get flight "Arrival" (PyDict []) ;;
   airline <- py_get2 flight "MarketingCarrier" "AirlineID" (PyStr "") ;;
   number <- py_get2 flight "MarketingCarrier" "FlightNumber" (PyStr "") ;;
   r_status <- py_get2 flight "FlightStatus" "Code" (PyStr "") ;;
   departure_time <- py_get2 departure "ScheduledTimeLocal" "DateTime" (PyStr "") ;;
   arrival_time <- py_get2 arrival "ScheduledTimeLocal" "DateTime" (PyStr "") ;;
   origin <- py_get departure "AirportCode" (PyStr "") ;;
   destination <- py_get arrival "AirportCode" (PyStr "") ;;
   Ok (PyDict [("flight", PyStr (py_str airline ++ py_str number));
               ("status", r_status);
               ("departure_time", departure_time);
               ("arrival_time", arrival_time);
               ("origin", origin);
               ("destination", destination)]))%pure.

(** The [for] loop of [_parse_route_flights]: it stops at the first flight
    whose parse raises. *)
Fixpoint parse_each (flights : list value) : result (list value) :=
  match flights with
  | [] => Ok []
  | flight :: rest =>
      (parsed <- _parse_single_flight flight ;;
       others <- parse_each rest ;;
       Ok (parsed :: others))%pure
  end.

(** The [try] suite of [_parse_route_flights]. *)
Definition _parse_route_flights_try (response : value) : result value :=
  (flights <- flights_of response ;;
   let flights :=
     match flights with
     | PyList l => l
     | _ => if truthy flights then [flights] else []
     end in
   parsed_flights <- parse_each flights ;;
   Ok (PyDict [("flights", PyList parsed_flights);
               ("count", PyInt (Z.of_nat (List.length parsed_flights)))]))%pure.

(** [LufthansaAPIClient._parse_route_flights] *)
Definition _parse_route_flights (response : value) : result value :=
  Pure.try_except (_parse_route_flights_try response)
    is_KeyError_or_TypeError
    (fun e => Ok (PyDict [("flights", PyList []);
                          ("error", PyStr (exn_str e))])).

(* ----------------------------------------------------------------- *)
(** *** Operations *)

(** The handler shared in shape by the operations that treat a 404:
    [except requests.HTTPError as e: if e.response.status_code == 404:
    return not_found / raise]. *)
Definition on_404 (not_found : value) (e : exn) : M value :=
  match e with
  | HTTPError _ response =>
      if status_code response =? 404 then ret not_found else raise e
  | _ => raise e
  end.

(** The query parameters of the three operations that send some. *)
Definition limit_params (limit : Z) : option (list (string * value)) :=
  Some [("limit", PyInt limit)].

Definition schedules_params (direct_flights : bool)
    : option (list (string * value)) :=
  Some [("directFlights", PyBool direct_flights)].

(** The endpoints, as the f-strings of the operations build them. *)
Definition flight_status_endpoint (flight_number date : string) : string :=
  "/operations/flightstatus/" ++ flight_number ++ "/" ++ date.

Definition route_endpoint (origin destination date : string) : string :=
  "/operations/flightstatus/route/" ++ origin ++ "/" ++ destination ++ "/" ++ date.

Definition arrivals_endpoint (airport from_time : string) : string :=
  "/operations/flightstatus/arrivals/" ++ airport ++ "/" ++ from_time.

Definition departures_endpoint (airport from_time : string) : string :=
  "/operations/flightstatus/departures/" ++ airport ++ "/" ++ from_time.

Definition schedules_endpoint (origin destination date : string) : string :=
  "/operations/schedules/" ++ origin ++ "/" ++ destination ++ "/" ++ date.

(** [LufthansaAPIClient.get_flight_status] *)
Definition get_flight_status (flight_number date : string) : M value :=
  let endpoint := flight_status_endpoint flight_number date in
  (try_except
     (response <- _make_request "GET" endpoint None ;;
      lift (_parse_flight_status response))
     is_HTTPError
     (on_404 (PyDict [("error", PyStr ("Flight " ++ flight_number
                                        ++ " not found for " ++ date))])))%py.

(** [LufthansaAPIClient.get_flight_status_by_route] *)
Definition get_flight_status_by_route (origin destination date : string)
    : M value :=
  let endpoint := route_endpoint origin destination date in
  (try_except
     (response <- _make_request "GET" endpoint None ;;
      lift (_parse_route_flights response))
     is_HTTPError
     (on_404 (PyDict [("flights", PyList []);
                      ("message", PyStr ("No flights found " ++ origin ++ "→"
                                          ++ destination ++ " on " ++ date))])))%py.

(** [LufthansaAPIClient.get_arrivals] *)
Definition get_arrivals (airport from_time : string) (limit : Z) : M value :=
  let endpoint := arrivals_endpoint airport from_time in
  _make_request "GET" endpoint (limit_params limit).

(** [LufthansaAPIClient.get_departures] *)
Definition get_departures (airport from_time : string) (limit : Z) : M value :=
  let endpoint := departures_endpoint airport from_time in
  _make_request "GET" endpoint (limit_params limit).

(** [LufthansaAPIClient.get_schedules] *)
Definition get_schedules (origin destination date : string)
    (direct_flights : bool) : M value :=
  let endpoint := schedules_endpoint origin destination date in
  let params := schedules_params direct_flights in
  (try_except
     (_make_request "GET" endpoint params)
     is_HTTPError
     (on_404 (PyDict [("schedules", PyList []);
                      ("message", PyStr "No schedules found")])))%py.

(** [LufthansaAPIClient.get_airport] *)
Definition get_airport (airport_code : string) : M value :=
  let endpoint := "/references/airports/" ++ airport_code in
  _make_request "GET" endpoint None.

(** [LufthansaAPIClient.get_airline] *)
Definition get_airline (airline_code : string) : M value :=
  let endpoint := "/references/airlines/" ++ airline_code in
  _make_request "GET" endpoint None.

(** [LufthansaAPIClient.get_aircraft] *)
Definition get_aircraft (aircraft_code : string) : M value :=
  let endpoint := "/references/aircraft/" ++ aircraft_code in
  _make_request "GET" endpoint None.

(** The public methods of the client, each with its arguments. *)
Inductive operation : Type :=
| GetFlightStatus (flight_number date : string)
| GetFlightStatusByRoute (origin destination date : string)
| GetArrivals (airport from_time : string) (limit : Z)
| GetDepartures (airport from_time : string) (limit : Z)
| GetSchedules (origin destination date : string) (direct_flights : bool)
| GetAirport (airport_code : string)
| GetAirline (airline_code : string)
| GetAircraft (aircraft_code : string).

Definition call (op : operation) : M value :=
  match op with
  | GetFlightStatus flight_number date => get_flight_status flight_number date
  | GetFlightStatusByRoute origin destination date =>
      get_flight_status_by_route origin destination date
  | GetArrivals airport from_time limit => get_arrivals airport from_time limit
  | GetDepartures airport from_time limit => get_departures airport from_time limit
  | GetSchedules origin destination date direct_flights =>
      get_schedules origin destination date direct_flights
  | GetAirport airport_code => get_airport airport_code
  | GetAirline airline_code => get_airline airline_code
  | GetAircraft aircraft_code => get_aircraft aircraft_code
  end.

(** The endpoint and the query parameters an operation passes to
    [_make_request]. *)
Definition endpoint_of (op : operation) : string :=
  match op with
  | GetFlightStatus flight_number date => flight_status_endpoint flight_number date
  | GetFlightStatusByRoute origin destination date =>
      route_endpoint origin destination date
  | GetArrivals airport from_time _ => arrivals_endpoint airport from_time
  | GetDepartures airport from_time _ => departures_endpoint airport from_time
  | GetSchedules origin destination date _ =>
      schedules_endpoint origin destination date
  | GetAirport airport_code => "/references/airports/" ++ airport_code
  | GetAirline airline_code => "/references/airlines/" ++ airline_code
  | GetAircraft aircraft_code => "/references/aircraft/" ++ aircraft_code
  end.

Definition params_of (op : operation) : option (list (string * value)) :=
  match op with
  | GetArrivals _ _ limit | GetDepartures _ _ limit => limit_params limit
  | GetSchedules _ _ _ direct_flights => schedules_params direct_flights
  | _ => None
  end.

(* ----------------------------------------------------------------- *)
(** *** The flight tools ([sub_agents/flight/tools.py]) *)

(** [str.upper], [str.isdigit] and [str.strip], which follow the Unicode
    character database. *)
Variable str_upper : string -> string.
Variable str_isdigit : string -> bool.
Variable str_strip : string -> string.

(** The str an argument holds when it is true. *)
Definition str_of (v : option string) : string :=
  match v with
  | Some s => s
  | None => ""
  end.

(** Lines 75-80 and 217-220: spaces removed from the upper-cased flight
    number, and [LH] put before a number made of digits only. *)
Definition normalize_flight_number (flight_number : string) : string :=
  let flight_number := without_spaces (str_upper flight_number) in
  if str_isdigit flight_number then "LH" ++ flight_number else flight_number.

(** [except Exception]: every exception of the model is one. *)
Definition is_Exception (e : exn) : bool := true.

(** [tools.check_flight_status]. [today] is what
    [datetime.now().strftime("%Y-%m-%d")] gives when it is called; the
    context is returned as the call leaves it. *)
Definition check_flight_status (flight_number date booking_id : option string)
    (tool_context : option tool_state) (today : string)
    : M (value * option tool_state) :=
  let date := if negb (str_truthy date) then today else str_of date in
  if str_truthy booking_id && negb (str_truthy flight_number)
  then ret (PyDict
              [("error",
                PyStr "Booking ID lookup requires Lufthansa Partner API access. Please provide the flight number directly.");
               ("hint",
                PyStr "You can find your flight number on your booking confirmation email.")],
            tool_context)
  else if negb (str_truthy flight_number)
  then ret (PyDict [("error",
                     PyStr "Please provide a flight_number (e.g., 'LH456')")],
            tool_context)
  else
    let flight_number := normalize_flight_number (str_of flight_number) in
    (try_except
       (result <- get_flight_status flight_number date ;;
        match tool_context with
        | Some state =>
            has_error <- lift (py_in "error" result) ;;
            if negb has_error
            then ret (result,
                      Some (dict_set "flight_date" (PyStr date)
                              (dict_set "flight_number" (PyStr flight_number)
                                 (dict_set "current_flight" result state))))
            else ret (result, tool_context)
        | None => ret (result, tool_context)
        end)
       is_Exception
       (fun e => ret (PyDict [("error",
                               PyStr ("Failed to fetch flight status: "
                                      ++ exn_str e))],
                      tool_context)))%py.

(** [tools.get_flight_details] *)
Definition get_flight_details (flight_number : string) (date : option string)
    (today : string) : M value :=
  let date := if negb (str_truthy date) then today else str_of date in
  let flight_number := normalize_flight_number flight_number in
  try_except
    (get_flight_status flight_number date)
    is_Exception
    (fun e => ret (PyDict [("error",
                            PyStr ("Failed to get flight details: "
                                   ++ exn_str e))])).

(** [tools.get_airport_departures]. [now] is what
    [datetime.now().strftime("%Y-%m-%dT%H:%M")] gives when it is called. *)
Definition get_airport_departures (airport : string) (from_time : option string)
    (limit : Z) (now : string) : M value :=
  let airport := str_strip (str_upper airport) in
  let from_time := if negb (str_truthy from_time) then now else str_of from_time in
  try_except
    (get_departures airport from_time limit)
    is_Exception
    (fun e => ret (PyDict [("error",
                            PyStr ("Failed to get departures: " ++ exn_str e))])).

(** [tools.get_airport_arrivals] *)
Definition get_airport_arrivals (airport : string) (from_time : option string)
    (limit : Z) (now : string) : M value :=
  let airport := str_strip (str_upper airport) in
  let from_time := if negb (str_truthy from_time) then now else str_of from_time in
  try_except
    (get_arrivals airport from_time limit)
    is_Exception
    (fun e => ret (PyDict [("error",
                            PyStr ("Failed to get arrivals: " ++ exn_str e))])).

(* ================================================================= *)
(** ** Vocabulary of the properties *)

(** The state in which the refresh path starts: the validity check has read
    the clock exactly when a token was held. *)
Definition after_check (st : state) : state :=
  if truthy (_access_token (self st))
  then {| self := self st; clock_reads := S (clock_reads st); sent := sent st |}
  else st.

(** A token is usable when it is held and the clock reads more than 60
    seconds before its expiry: the test of [_get_access_token]. *)
Definition token_fresh (w : env) (st : state) : bool :=
  truthy (_access_token (self st))
  && (time_time w (clock_reads st) <? _token_expires_at (self st) - 60).

(** What a successful refresh leaves behind: the granted token and its
    absolute expiry, one more clock reading, one more request in the log. *)
Definition refreshed (st : state) (tok : value) (expires_at : Z) : state :=
  {| self := with_token_expires_at (with_access_token (self st) tok) expires_at;
     clock_reads := S (clock_reads st);
     sent := sent st ++ [auth_request (self st)] |}.

(** The auth endpoint, asked in state [st], grants [tok] with absolute expiry
    [expires_at]: it answers the POST with a status that passes
    [raise_for_status] and a JSON object holding [access_token], whose
    [expires_in] (36000 when absent) is a number. *)
Definition grants (w : env) (st : state) (tok : value) (expires_at : Z) : Prop :=
  exists resp kvs expires_in,
    http w (sent st) (auth_request (self st)) = Reply resp
    /\ http_error_msg resp = None
    /\ json_body resp = Some (PyDict kvs)
    /\ dict_get "access_token" kvs = Some tok
    /\ py_get (PyDict kvs) "expires_in" (PyInt 36000) = Ok expires_in
    /\ py_add (time_time w (clock_reads st)) expires_in = Ok expires_at.

(** The state after [req] went out. *)
Definition pushed (st : state) (req : http_request) : state :=
  {| self := self st; clock_reads := clock_reads st; sent := sent st ++ [req] |}.

(** What [_make_request] makes of the provider's answer. *)
Definition received (o : http_outcome) : result value :=
  match o with
  | NoReply msg => Raise (RequestException msg)
  | Reply resp =>
      match http_error_msg resp with
      | Some msg => Raise (HTTPError msg resp)
      | None =>
          match json_body resp with
          | Some v => Ok v
          | None => Raise (RequestException (json_error resp))
          end
      end
  end.

(** The value of a header. *)
Fixpoint header (name : string) (headers : list (string * string))
    : option string :=
  match headers with
  | [] => None
  | (k, v) :: rest => if String.eqb name k then Some v else header name rest
  end.

Definition is_AttributeError (e : exn) : bool :=
  match e with AttributeError _ => true | _ => false end.

(** [r] raises nothing outside [P]. *)
Definition raises_only {A} (P : exn -> bool) (r : result A) : Prop :=
  match r with
  | Ok _ => True
  | Raise e => P e = true
  end.

Definition is_parse_error (e : exn) : bool :=
  is_AttributeError e || is_KeyError_or_TypeError e.

(** The call obtains a token and the provider answers its data request with
    [resp]. *)
Definition answers (w : env) (st : state) (method endpoint : string)
    (params : option (list (string * value))) (resp : http_response) : Prop :=
  exists tok st1,
    _get_access_token w st = (Ok tok, st1)
    /\ http w (sent st1) (data_request (self st1) method endpoint params tok)
       = Reply resp.

(** What an operation returns for the answer [resp]: [not_found] is the
    value its handler substitutes for a 404 (when it has one), [parse] is
    what it does with the decoded body. *)
Definition outcome_with (not_found : option value)
    (parse : value -> result value) (resp : http_response) : result value :=
  match http_error_msg resp with
  | Some msg =>
      match not_found with
      | Some v => if status_code resp =? 404 then Ok v
                  else Raise (HTTPError msg resp)
      | None => Raise (HTTPError msg resp)
      end
  | None =>
      match json_body resp with
      | Some v => parse v
      | None => Raise (RequestException (json_error resp))
      end
  end.

(** Following a dotted path such as [FlightStatusResource.Flights.Flight]
    through nested JSON objects: the field is found, or a key on the way is
    missing, or the way is blocked by something that is not an object. *)
Inductive field : Type :=
| Found (v : value)
| Missing
| Blocked.

Fixpoint field_at (path : list string) (v : value) : field :=
  match path with
  | [] => Found v
  | key :: rest =>
      match v with
      | PyDict kvs =>
          match dict_get key kvs with
          | Some x => field_at rest x
          | None => Missing
          end
      | _ => Blocked
      end
  end.

Definition Flight_field (response : value) : field :=
  field_at ["FlightStatusResource"; "Flights"; "Flight"] response.

(** The payload [payload] is successfully received: a token is obtained,
    the provider answers the GET with a status that passes
    [raise_for_status], and the body decodes to [payload]. *)
Definition delivers (w : env) (st : state) (endpoint : string)
    (payload : value) : Prop :=
  exists resp,
    answers w st "GET" endpoint None resp
    /\ http_error_msg resp = None
    /\ json_body resp = Some payload.

(** Two parses agree when they give the same result, or when both caught a
    failure and each echoes its own payload under [raw] next to the same
    error text. *)
Definition same_up_to_raw (payload payload' : value)
    (res res' : result value) : Prop :=
  res = res'
  \/ exists msg,
       res = Ok (PyDict [("error", PyStr msg); ("raw", payload)])
       /\ res' = Ok (PyDict [("error", PyStr msg); ("raw", payload')]).

(** The call obtains a token, sends its data request, and the transport
    fails with [msg] (connection error or timeout). *)
Definition no_answer (w : env) (st : state) (method endpoint : string)
    (params : option (list (string * value))) (msg : string) : Prop :=
  exists tok st1,
    _get_access_token w st = (Ok tok, st1)
    /\ http w (sent st1) (data_request (self st1) method endpoint params tok)
       = NoReply msg.

(** The operations that hand the decoded body back as it is. *)
Definition passes_through (op : operation) : bool :=
  match op with
  | GetFlightStatus _ _ | GetFlightStatusByRoute _ _ _ => false
  | _ => true
  end.

(** [kvs.get(key, default)] for the items [kvs] of a dict. *)
Definition item_or (key : string) (default : value)
    (kvs : list (string * value)) : value :=
  match dict_get key kvs with
  | Some v => v
  | None => default
  end.

(** The items of the object stored under [key]; none when there is no such
    object. *)
Definition object_at (key : string) (kvs : list (string * value))
    : list (string * value) :=
  match dict_get key kvs with
  | Some (PyDict items) => items
  | _ => []
  end.

(** [key] is absent, or holds an object: then [kvs.get(key, {})] is a dict. *)
Definition object_or_absent (key : string) (kvs : list (string * value)) : bool :=
  match dict_get key kvs with
  | None | Some (PyDict _) => true
  | Some _ => false
  end.

(** The [AttributeError] of calling [.get] on something that is not a dict. *)
Definition no_get (v : value) : exn :=
  AttributeError ("'" ++ type_name v ++ "' object has no attribute 'get'").

(** The shape [_parse_single_flight] needs of a flight object: each nested
    field it walks through is an object or absent. *)
Definition route_flight_shape (flight : list (string * value)) : bool :=
  object_or_absent "Departure" flight
  && object_or_absent "Arrival" flight
  && object_or_absent "MarketingCarrier" flight
  && object_or_absent "FlightStatus" flight
  && object_or_absent "ScheduledTimeLocal" (object_at "Departure" flight)
  && object_or_absent "ScheduledTimeLocal" (object_at "Arrival" flight).

(** The entry of the route result for a flight object of that shape. *)
Definition route_entry (flight : list (string * value)) : value :=
  let departure := object_at "Departure" flight in
  let arrival := object_at "Arrival" flight in
  let carrier := object_at "MarketingCarrier" flight in
  PyDict
    [("flight", PyStr (py_str (item_or "AirlineID" (PyStr "") carrier)
                       ++ py_str (item_or "FlightNumber" (PyStr "") carrier)));
     ("status", item_or "Code" (PyStr "") (object_at "FlightStatus" flight));
     ("departure_time",
      item_or "DateTime" (PyStr "") (object_at "ScheduledTimeLocal" departure));
     ("arrival_time",
      item_or "DateTime" (PyStr "") (object_at "ScheduledTimeLocal" arrival));
     ("origin", item_or "AirportCode" (PyStr "") departure);
     ("destination", item_or "AirportCode" (PyStr "") arrival)].

(** A flight object of the shape the route parser needs. *)
Definition is_route_flight (flight : value) : bool :=
  match flight with
  | PyDict kvs => route_flight_shape kvs
  | _ => false
  end.

Definition route_entry_of (flight : value) : value :=
  match flight with
  | PyDict kvs => route_entry kvs
  | _ => PyNone
  end.

(** The flight [_parse_flight_status] reads from the [Flight] field: the
    field itself, or its first element when it is a list; none when the
    field is a false value. *)
Definition first_flight (flights : value) : option value :=
  match flights with
  | PyList (flight :: _) => Some flight
  | PyList [] => None
  | _ => if truthy flights then Some flights else None
  end.

(** The nested fields of a departure or arrival that a status record walks
    through. *)
Definition side_shape (side : list (string * value)) : bool :=
  object_or_absent "Terminal" side
  && object_or_absent "ScheduledTimeLocal" side
  && object_or_absent "EstimatedTimeLocal" side
  && object_or_absent "ActualTimeLocal" side.

(** The shape [_parse_flight_status] needs of a flight object. *)
Definition status_flight_shape (flight : list (string * value)) : bool :=
  object_or_absent "MarketingCarrier" flight
  && object_or_absent "FlightStatus" flight
  && object_or_absent "Departure" flight
  && side_shape (object_at "Departure" flight)
  && object_or_absent "Arrival" flight
  && side_shape (object_at "Arrival" flight)
  && object_or_absent "Equipment" flight.

(** The status code a flight object carries, as the description lookup sees
    it. *)
Definition status_code_of (flight : list (string * value)) : value :=
  item_or "Code" (PyStr "") (object_at "FlightStatus" flight).

(** The description of a hashable status code. *)
Definition description_of (code : value) : string :=
  match code with
  | PyStr c =>
      match status_map_get c status_map with
      | Some description => description
      | None => "Unknown (" ++ c ++ ")"
      end
  | _ => "Unknown (" ++ py_str code ++ ")"
  end.

Definition side_record (side : list (string * value)) : value :=
  PyDict
    [("airport", item_or "AirportCode" (PyStr "") side);
     ("terminal", item_or "Name" (PyStr "") (object_at "Terminal" side));
     ("gate", item_or "Gate" (PyStr "") (object_at "Terminal" side));
     ("scheduled",
      item_or "DateTime" (PyStr "") (object_at "ScheduledTimeLocal" side));
     ("estimated",
      item_or "DateTime" (PyStr "") (object_at "EstimatedTimeLocal" side));
     ("actual",
      item_or "DateTime" (PyStr "") (object_at "ActualTimeLocal" side))].

(** The flat record of a flight object of that shape. *)
Definition status_record (flight : list (string * value)) : value :=
  let carrier := object_at "MarketingCarrier" flight in
  let equipment := object_at "Equipment" flight in
  PyDict
    [("flight", item_or "FlightNumber" (PyStr "") carrier);
     ("airline", item_or "AirlineID" (PyStr "") carrier);
     ("status", item_or "Code" (PyStr "unknown") (object_at "FlightStatus" flight));
     ("status_description", PyStr (description_of (status_code_of flight)));
     ("departure", side_record (object_at "Departure" flight));
     ("arrival", side_record (object_at "Arrival" flight));
     ("aircraft",
      PyDict [("code", item_or "AircraftCode" (PyStr "") equipment);
              ("registration",
               item_or "AircraftRegistration" (PyStr "") equipment)])].

(** The [TypeError] of hashing a list or a dict. *)
Definition unhashable_error (v : value) : exn :=
  TypeError ("unhashable type: '" ++ type_name v ++ "'").

(** What the handler of [_parse_flight_status] returns for the exception
    [e]. *)
Definition parse_failure (e : exn) (response : value) : value :=
  PyDict [("error", PyStr ("Failed to parse flight status: " ++ exn_str e));
          ("raw", response)].

(** What [flight_status_record] raises when it raises. *)
Definition record_error (e : exn) : Prop :=
  (exists msg, e = AttributeError msg)
  \/ (exists code, unhashable code = true /\ e = unhashable_error code).

(** The context [check_flight_status] leaves for a result with the items
    [items]: written when there is a context and the result has no [error]
    item. *)
Definition context_after (tool_context : option tool_state)
    (items : list (string * value)) (flight_number date : string)
    : option tool_state :=
  match tool_context with
  | Some state =>
      match dict_get "error" items with
      | Some _ => Some state
      | None =>
          Some (dict_set "flight_date" (PyStr date)
                  (dict_set "flight_number" (PyStr flight_number)
                     (dict_set "current_flight" (PyDict items) state)))
      end
  | None => None
  end.

(** The date a tool asks the client for. *)
Definition date_or_today (date : option string) (today : string) : string :=
  if negb (str_truthy date) then today else str_of date.

(** The variable [name] is set to a non-empty value. *)
Definition is_set (env : environ) (name : string) : bool :=
  str_truthy (env name).

(** [GOOGLE_GENAI_USE_VERTEXAI] is set to "1". *)
Definition vertex_mode (env : environ) : bool :=
  match env "GOOGLE_GENAI_USE_VERTEXAI" with
  | Some v => String.eqb v "1"
  | None => false
  end.

(** The variables without which [config.py] cannot be imported. *)
Definition required_variables_set (env : environ) : bool :=
  is_set env (if vertex_mode env then "GOOGLE_CLOUD_PROJECT" else "GOOGLE_API_KEY")
  && is_set env "LUFTHANSA_CLIENT_ID"
  && is_set env "LUFTHANSA_CLIENT_SECRET".

(** The state of the client after a series of operations called one after
    the other on it, whatever each returned or raised. *)
Fixpoint calls (ops : list operation) (w : env) (st : state) : state :=
  match ops with
  | [] => st
  | op :: rest => calls rest w (snd (call op w st))
  end.

(** The lifetime in seconds that the items [kvs] of a grant give the token:
    36000 when [expires_in] is absent, its value when it is a number that
    can be added to the clock, none otherwise. *)
Definition granted_lifetime (kvs : list (string * value)) : option Z :=
  match dict_get "expires_in" kvs with
  | None => Some 36000
  | Some (PyInt z) => if Z.abs z <? float_int_limit then Some z else None
  | Some (PyBool true) => Some 1
  | Some (PyBool false) => Some 0
  | Some _ => None
  end.

(** The auth endpoint, asked in state [st], answers the POST with a status
    that passes [raise_for_status] and a JSON object that holds the token
    [tok] under [access_token] and gives it the lifetime [lifetime]. *)
Definition granted (w : env) (st : state) (tok : value) (lifetime : Z) : Prop :=
  exists resp kvs,
    http w (sent st) (auth_request (self st)) = Reply resp
    /\ http_error_msg resp = None
    /\ json_body resp = Some (PyDict kvs)
    /\ dict_get "access_token" kvs = Some tok
    /\ granted_lifetime kvs = Some lifetime.

(* ================================================================= *)
(** ** The token cache *)

Lemma _get_access_token_fresh (w : env) (st : state) :
  token_fresh w st = true ->
  _get_access_token w st
  = (Ok (_access_token (self st)),
     {| self := self st; clock_reads := S (clock_reads st); sent := sent st |}).
Proof.
  unfold token_fresh, _get_access_token, bind, get_self, time_now, ret.
  intros [Htok Hnow]%andb_prop. cbn. now rewrite Htok, Hnow.
Qed.

Lemma _get_access_token_stale (w : env) (st : state) :
  token_fresh w st = false ->
  _get_access_token w st = refresh_access_token w (after_check st).
Proof.
  unfold token_fresh, _get_access_token, after_check, bind, get_self, time_now.
  cbn. destruct (truthy (_access_token (self st))); cbn; [|reflexivity].
  now intros ->.
Qed.

Lemma refresh_granted (w : env) (st : state) resp kvs tok expires_in expires_at :
  http w (sent st) (auth_request (self st)) = Reply resp ->
  http_error_msg resp = None ->
  json_body resp = Some (PyDict kvs) ->
  dict_get "access_token" kvs = Some tok ->
  py_get (PyDict kvs) "expires_in" (PyInt 36000) = Ok expires_in ->
  py_add (time_time w (clock_reads st)) expires_in = Ok expires_at ->
  refresh_access_token w st = (Ok tok, refreshed st tok expires_at).
Proof.
  intros Hreply Hstatus Hjson Htok Hexp Hadd.
  unfold refresh_access_token, try_except, bind, get_self, requests_request,
    raise_for_status, response_json, lift, set_access_token, time_now,
    set_token_expires_at, ret.
  cbn. rewrite Hreply, Hstatus. cbn. rewrite Hjson. cbn. rewrite Htok.
  cbn in Hexp. rewrite Hexp. cbn. rewrite Hadd. reflexivity.
Qed.

(** Every run of the refresh path sends the auth request, and nothing else;
    the configuration of the client is never written. *)
Lemma refresh_sent (w : env) (st : state) r st' :
  refresh_access_token w st = (r, st') ->
  sent st' = (sent st ++ [auth_request (self st)])%list
  /\ base_url (self st') = base_url (self st).
Proof.
  unfold refresh_access_token, try_except, bind, get_self, requests_request,
    raise_for_status, response_json, lift, set_access_token, time_now,
    set_token_expires_at, ret, raise.
  cbn.
  destruct (http w (sent st) (auth_request (self st))) as [resp|msg]; cbn;
    [|intros [= <- <-]; auto].
  destruct (http_error_msg resp); cbn; [intros [= <- <-]; auto|].
  destruct (json_body resp) as [token_data|]; cbn; [|intros [= <- <-]; auto].
  destruct (py_getitem token_data "access_token") as [tok|e]; cbn;
    [|destruct (is_RequestException e); intros [= <- <-]; auto].
  destruct (py_get token_data "expires_in" (PyInt 36000)) as [n|e]; cbn;
    [|destruct (is_RequestException e); intros [= <- <-]; auto].
  destruct (py_add _ n) as [t|e]; cbn;
    [|destruct (is_RequestException e); intros [= <- <-]; auto].
  intros [= <- <-]; auto.
Qed.

(** A refresh that returns a token was granted it by the auth endpoint. *)
Lemma refresh_ok_inv (w : env) (st : state) tok st' :
  refresh_access_token w st = (Ok tok, st') ->
  exists resp kvs expires_in expires_at,
    http w (sent st) (auth_request (self st)) = Reply resp
    /\ http_error_msg resp = None
    /\ json_body resp = Some (PyDict kvs)
    /\ dict_get "access_token" kvs = Some tok
    /\ py_get (PyDict kvs) "expires_in" (PyInt 36000) = Ok expires_in
    /\ py_add (time_time w (clock_reads st)) expires_in = Ok expires_at
    /\ st' = refreshed st tok expires_at.
Proof.
  unfold refresh_access_token, try_except, bind, get_self, requests_request,
    raise_for_status, response_json, lift, set_access_token, time_now,
    set_token_expires_at, ret, raise.
  cbn.
  destruct (http w (sent st) (auth_request (self st))) as [resp|msg] eqn:Hreply;
    cbn; [|discriminate].
  destruct (http_error_msg resp) eqn:Hstatus; cbn; [discriminate|].
  destruct (json_body resp) as [token_data|] eqn:Hjson; cbn; [|discriminate].
  destruct (py_getitem token_data "access_token") as [tok0|e] eqn:Htok; cbn;
    [|destruct (is_RequestException e); discriminate].
  destruct (py_get token_data "expires_in" (PyInt 36000)) as [n|e] eqn:Hexp; cbn;
    [|destruct (is_RequestException e); discriminate].
  destruct (py_add _ n) as [t|e] eqn:Hadd; cbn;
    [|destruct (is_RequestException e); discriminate].
  intros [= <- <-].
  destruct token_data as [| | | | |kvs]; try discriminate Htok.
  cbn in Htok. destruct (dict_get "access_token" kvs) eqn:Hk; [|discriminate].
  injection Htok as ->.
  exists resp, kvs, n, t. repeat split; auto.
Qed.

Lemma refresh_ok_iff (w : env) (st : state) tok st' :
  refresh_access_token w st = (Ok tok, st')
  <-> exists expires_at, grants w st tok expires_at
                         /\ st' = refreshed st tok expires_at.
Proof.
  split.
  - intros (resp & kvs & n & t & H)%refresh_ok_inv.
    exists t. split; [exists resp, kvs, n|]; tauto.
  - intros (t & (resp & kvs & n & H1 & H2 & H3 & H4 & H5 & H6) & ->).
    eapply refresh_granted; eauto.
Qed.

Lemma after_check_self (st : state) : self (after_check st) = self st.
Proof. unfold after_check. now destruct (truthy _). Qed.

Lemma after_check_sent (st : state) : sent (after_check st) = sent st.
Proof. unfold after_check. now destruct (truthy _). Qed.

(* ================================================================= *)
(** ** The authenticated request *)

Lemma _make_request_with_token (w : env) (st st1 : state) tok
    method endpoint params :
  _get_access_token w st = (Ok tok, st1) ->
  let req := data_request (self st1) method endpoint params tok in
  _make_request method endpoint params w st
  = (received (http w (sent st1) req), pushed st1 req).
Proof.
  intros Htok req. unfold _make_request, bind. rewrite Htok.
  unfold get_self, try_except, bind, requests_request, raise_for_status,
    response_json, raise, ret, received, pushed. fold req.
  destruct (http w (sent st1) req) as [resp|msg]; cbn; [|reflexivity].
  destruct (http_error_msg resp); cbn; [reflexivity|].
  destruct (json_body resp); reflexivity.
Qed.

Lemma _make_request_without_token (w : env) (st st1 : state) e
    method endpoint params :
  _get_access_token w st = (Raise e, st1) ->
  _make_request method endpoint params w st = (Raise e, st1).
Proof. intros Htok. unfold _make_request, bind. now rewrite Htok. Qed.

(** [token_fresh] in the words of the specification. *)
Lemma token_fresh_true (w : env) (st : state) :
  token_fresh w st = true
  <-> truthy (_access_token (self st)) = true
      /\ time_time w (clock_reads st) < _token_expires_at (self st) - 60.
Proof. unfold token_fresh. rewrite andb_true_iff, Z.ltb_lt. tauto. Qed.

Lemma token_fresh_false (w : env) (st : state) :
  token_fresh w st = false
  <-> truthy (_access_token (self st)) = false
      \/ _token_expires_at (self st) - 60 <= time_time w (clock_reads st).
Proof. unfold token_fresh. rewrite andb_false_iff, Z.ltb_ge. tauto. Qed.

Lemma data_request_authorization (c : client) method endpoint params tok :
  header "Authorization" (req_headers (data_request c method endpoint params tok))
  = Some ("Bearer " ++ py_str tok).
Proof. reflexivity. Qed.

Lemma data_request_base_url (c c' : client) method endpoint params tok :
  base_url c' = base_url c ->
  data_request c' method endpoint params tok
  = data_request c method endpoint params tok.
Proof. unfold data_request. now intros ->. Qed.

(** The three ways a call of [_make_request] can go. *)
Lemma _make_request_cases (w : env) (st : state) method endpoint params :
  let c := self st in
  let run := _make_request method endpoint params w st in
  (token_fresh w st = true
   /\ self (snd run) = c
   /\ sent (snd run)
      = (sent st ++ [data_request c method endpoint params (_access_token c)])%list)
  \/ (token_fresh w st = false
      /\ (exists e, fst run = Raise e)
      /\ (forall tok t, ~ grants w (after_check st) tok t)
      /\ sent (snd run) = (sent st ++ [auth_request c])%list)
  \/ (token_fresh w st = false
      /\ exists tok t,
           grants w (after_check st) tok t
           /\ self (snd run)
              = with_token_expires_at (with_access_token c tok) t
           /\ sent (snd run)
              = (sent st ++ [auth_request c;
                             data_request c method endpoint params tok])%list).
Proof.
  intros c run. subst run c.
  destruct (token_fresh w st) eqn:Hfresh.
  - left. pose proof (_get_access_token_fresh _ _ Hfresh) as Htok.
    rewrite (_make_request_with_token _ _ _ _ method endpoint params Htok).
    cbn. auto.
  - right. pose proof (_get_access_token_stale _ _ Hfresh) as Hstale.
    destruct (refresh_access_token w (after_check st)) as [[tok|e] st1] eqn:Hr.
    + right. split; [reflexivity|].
      rewrite (_make_request_with_token _ _ _ _ method endpoint params Hstale).
      apply refresh_ok_iff in Hr as (t & Hg & ->).
      exists tok, t. cbn. rewrite after_check_self, after_check_sent.
      repeat split; auto. now rewrite <- app_assoc.
    + left. split; [reflexivity|].
      rewrite (_make_request_without_token _ _ _ _ method endpoint params Hstale).
      cbn. split; [eauto|]. split.
      * intros tok t Hg.
        assert (refresh_access_token w (after_check st)
                = (Ok tok, refreshed (after_check st) tok t)) as Hok
          by (apply refresh_ok_iff; eauto).
        congruence.
      * apply refresh_sent in Hr as [Hs _].
        now rewrite Hs, after_check_self, after_check_sent.
Qed.

(** What the code computes with [py_add] is the clock reading plus the
    lifetime the grant gives. *)
Lemma grants_granted (w : env) (st : state) (tok : value) (expires_at : Z) :
  grants w st tok expires_at
  <-> exists lifetime,
        granted w st tok lifetime
        /\ expires_at = time_time w (clock_reads st) + lifetime.
Proof.
  unfold grants, granted, granted_lifetime, py_get, py_add. split.
  - intros (resp & kvs & n & Hreply & Hstatus & Hjson & Htok & Hget & Hadd).
    destruct (dict_get "expires_in" kvs) as [x|] eqn:Hx;
      injection Hget as <-.
    + destruct x as [|b|z| | |]; try discriminate Hadd.
      * injection Hadd as <-.
        exists (if b then 1 else 0). split; [|reflexivity].
        exists resp, kvs. rewrite Hx. repeat split; auto. now destruct b.
      * destruct (Z.abs z <? float_int_limit) eqn:Hz; [|discriminate].
        injection Hadd as <-. exists z. split; [|reflexivity].
        exists resp, kvs. rewrite Hx, Hz. auto.
    + cbn in Hadd. injection Hadd as <-. exists 36000. split; [|reflexivity].
      exists resp, kvs. rewrite Hx. auto.
  - intros (lifetime & (resp & kvs & Hreply & Hstatus & Hjson & Htok & Hlife) & ->).
    destruct (dict_get "expires_in" kvs) as [x|] eqn:Hx.
    + exists resp, kvs, x. rewrite Hx.
      do 5 (split; [assumption || reflexivity|]).
      destruct x as [|b|z| | |]; try discriminate Hlife.
      * destruct b; now injection Hlife as <-.
      * destruct (Z.abs z <? float_int_limit); [|discriminate].
        now injection Hlife as <-.
    + injection Hlife as <-. exists resp, kvs, (PyInt 36000). rewrite Hx.
      do 5 (split; [assumption || reflexivity|]). reflexivity.
Qed.

Lemma granted_after_check (w : env) (st : state) tok lifetime :
  granted w (after_check st) tok lifetime <-> granted w st tok lifetime.
Proof. unfold granted. now rewrite after_check_sent, after_check_self. Qed.

(* ================================================================= *)
(** ** Properties of the token cache *)

(** Handling a 404 and parsing the payload touch neither the client nor the
    network: an operation leaves the state its call of [_make_request]
    leaves. *)
Lemma handled_state (w : env) (st : state) (m : M value)
    (parse : value -> result value) (not_found : value) :
  snd (try_except (response <- m ;; lift (parse response))%py
         is_HTTPError (on_404 not_found) w st)
  = snd (m w st).
Proof.
  unfold try_except, bind, lift, on_404, ret, raise.
  destruct (m w st) as [[v|e] st1]; cbn.
  - destruct (parse v) as [x|e]; cbn; [reflexivity|].
    destruct (is_HTTPError e); [|reflexivity].
    destruct e; try reflexivity. now destruct (status_code response =? 404).
  - destruct (is_HTTPError e); [|reflexivity].
    destruct e; try reflexivity. now destruct (status_code response =? 404).
Qed.

Lemma call_state (op : operation) (w : env) (st : state) :
  snd (call op w st)
  = snd (_make_request "GET" (endpoint_of op) (params_of op) w st).
Proof.
  destruct op; cbn [call endpoint_of params_of]; try reflexivity.
  - apply handled_state.
  - apply handled_state.
  - unfold get_schedules, try_except, on_404, ret, raise.
    destruct (_make_request _ _ _ w st) as [[v|e] st1]; cbn; [reflexivity|].
    destruct (is_HTTPError e); [|reflexivity].
    destruct e; try reflexivity. now destruct (status_code response =? 404).
Qed.

(** C1, as the code has it. For every operation of the client, every request
    that a call of it sends is either the token POST of a refresh, or the
    data request, and the data request carries the header
    [Authorization: Bearer <token>] where the token is either the cached
    one, held and more than 60 seconds from its expiry (then the data request
    is the only request sent), or the one the auth endpoint granted to the
    refresh that was sent just before it. A missing or stale cached token is
    therefore never sent; what the refresh was granted is sent as it is. *)
Theorem C1_requests_carry_cached_or_granted_token (op : operation) (w : env) (st : state) :
  let c := self st in
  let st' := snd (call op w st) in
  exists new,
    sent st' = (sent st ++ new)%list
    /\ forall req, In req new ->
         req = auth_request c
         \/ exists tok,
              req = data_request c "GET" (endpoint_of op) (params_of op) tok
              /\ header "Authorization" (req_headers req)
                 = Some ("Bearer " ++ py_str tok)
              /\ ((truthy (_access_token c) = true
                   /\ time_time w (clock_reads st) < _token_expires_at c - 60
                   /\ tok = _access_token c
                   /\ new = [req])
                  \/ (exists expires_at,
                        grants w (after_check st) tok expires_at
                        /\ new = [auth_request c; req]
                        /\ _access_token (self st') = tok)).
Proof.
  intros c st'. subst c st'. rewrite call_state.
  destruct (_make_request_cases w st "GET" (endpoint_of op) (params_of op))
    as [(Hf & Hself & Hsent) | [(Hf & _ & _ & Hsent) | (Hf & tok & t & Hg & Hself & Hsent)]].
  - eexists. split; [exact Hsent|].
    intros req [<-|[]]. right. eexists. split; [reflexivity|].
    split; [reflexivity|]. left. apply token_fresh_true in Hf. tauto.
  - eexists. split; [exact Hsent|]. intros req [<-|[]]. now left.
  - eexists. split; [exact Hsent|].
    intros req [<-|[<-|[]]]; [now left|]. right. exists tok.
    split; [reflexivity|]. split; [reflexivity|]. right. exists t.
    rewrite Hself. auto.
Qed.

(** C4. When the client holds a token (a true value of [_access_token]) and
    the clock reads strictly less than [expires_at - 60], a request reuses
    the cached token: the data request, carrying that token, is the only
    request sent (no auth call), and the client's attributes, token and
    expiry included, are unchanged. *)
Theorem C4_fresh_token_is_reused (w : env) (st : state) method endpoint params :
  truthy (_access_token (self st)) = true ->
  time_time w (clock_reads st) < _token_expires_at (self st) - 60 ->
  let cached := _access_token (self st) in
  let st' := snd (_make_request method endpoint params w st) in
  fst (_get_access_token w st) = Ok cached
  /\ sent st'
     = (sent st ++ [data_request (self st) method endpoint params cached])%list
  /\ self st' = self st.
Proof.
  intros Htok Hnow cached st'. subst cached st'.
  assert (token_fresh w st = true) as Hf by (apply token_fresh_true; auto).
  split; [now rewrite (_get_access_token_fresh _ _ Hf)|].
  destruct (_make_request_cases w st method endpoint params)
    as [(_ & Hself & Hsent) | [(Hf' & _) | (Hf' & _)]]; [auto| |]; congruence.
Qed.

(** C5. When no token is held, or the clock reads [expires_at - 60] or
    later, a data request sends the auth POST exactly once and first. The
    data request is sent only after the auth endpoint has granted a token,
    and by then the new token is stored together with its absolute expiry:
    the clock reading taken after the answer plus the lifetime of the grant
    ([expires_in], 36000 when absent). When nothing is granted (no answer, an
    error status, no [access_token], or an [expires_in] that cannot be added
    to the clock) the call raises and no data request is sent. *)
Theorem C5_stale_token_is_refreshed_once (w : env) (st : state)
    method endpoint params :
  truthy (_access_token (self st)) = false
  \/ _token_expires_at (self st) - 60 <= time_time w (clock_reads st) ->
  let c := self st in
  let res := fst (_make_request method endpoint params w st) in
  let st' := snd (_make_request method endpoint params w st) in
  let issued := time_time w (clock_reads (after_check st)) in
  (exists tok lifetime,
     granted w st tok lifetime
     /\ sent st' = (sent st ++ [auth_request c;
                                data_request c method endpoint params tok])%list
     /\ _access_token (self st') = tok
     /\ _token_expires_at (self st') = issued + lifetime)
  \/ ((forall tok lifetime, ~ granted w st tok lifetime)
      /\ sent st' = (sent st ++ [auth_request c])%list
      /\ exists e, res = Raise e).
Proof.
  intros Hstale%token_fresh_false c res st' issued. subst c res st' issued.
  destruct (_make_request_cases w st method endpoint params)
    as [(Hf & _) | [(_ & He & Hn & Hsent) | (_ & tok & t & Hg & Hself & Hsent)]].
  - congruence.
  - right. split; [|split; assumption]. intros tok lifetime Hg.
    apply (Hn tok (time_time w (clock_reads (after_check st)) + lifetime)).
    apply grants_granted. exists lifetime. split; [|reflexivity].
    now apply (proj2 (granted_after_check w st tok lifetime)).
  - left. apply grants_granted in Hg as (lifetime & Hg & ->).
    apply (proj1 (granted_after_check w st tok lifetime)) in Hg.
    exists tok, lifetime. rewrite Hself.
    split; [exact Hg|]. split; [exact Hsent|]. split; reflexivity.
Qed.

(** C9. When the auth endpoint answers a refresh successfully with a JSON
    object that holds [access_token] but no [expires_in], the stored expiry
    is the issuance time (the clock reading taken after the answer) plus
    36000 seconds, and the granted token is stored with it. *)
Theorem C9_default_lifetime (w : env) (st : state) resp kvs tok :
  token_fresh w st = false ->
  let st0 := after_check st in
  http w (sent st0) (auth_request (self st0)) = Reply resp ->
  http_error_msg resp = None ->
  json_body resp = Some (PyDict kvs) ->
  dict_get "access_token" kvs = Some tok ->
  dict_get "expires_in" kvs = None ->
  let issued := time_time w (clock_reads st0) in
  let st' := snd (_get_access_token w st) in
  fst (_get_access_token w st) = Ok tok
  /\ _access_token (self st') = tok
  /\ _token_expires_at (self st') = issued + 36000.
Proof.
  intros Hf st0 Hreply Hstatus Hjson Htok Hexp issued st'. subst st' issued.
  rewrite (_get_access_token_stale _ _ Hf). fold st0.
  erewrite refresh_granted; eauto.
  - cbn. auto.
  - cbn. now rewrite Hexp.
  - reflexivity.
Qed.

(* ================================================================= *)
(** ** What the parsers can raise *)

Lemma raises_only_bind {A B} (P : exn -> bool) (m : result A) (k : A -> result B) :
  raises_only P m -> (forall a, raises_only P (k a)) ->
  raises_only P (Pure.bind m k).
Proof. destruct m; cbn; auto. Qed.

Lemma raises_only_weaken {A} (P Q : exn -> bool) (r : result A) :
  (forall e, P e = true -> Q e = true) -> raises_only P r -> raises_only Q r.
Proof. destruct r; cbn; auto. Qed.

Lemma py_get_raises obj key default :
  raises_only is_AttributeError (py_get obj key default).
Proof.
  destruct obj; cbn; auto. now destruct (dict_get key items).
Qed.

Lemma py_get2_raises obj k1 k2 default :
  raises_only is_AttributeError (py_get2 obj k1 k2 default).
Proof.
  apply raises_only_bind; [apply py_get_raises|]. intros. apply py_get_raises.
Qed.

Lemma flights_of_raises response :
  raises_only is_AttributeError (flights_of response).
Proof.
  apply raises_only_bind; [apply py_get_raises|]. intros. apply py_get2_raises.
Qed.

Create HintDb raises.
#[local] Hint Resolve py_get_raises py_get2_raises flights_of_raises : raises.

Ltac raises_chain :=
  repeat (apply raises_only_bind; [solve [auto with raises]|intros ?]);
  try exact I.

Lemma _parse_single_flight_raises flight :
  raises_only is_AttributeError (_parse_single_flight flight).
Proof. unfold _parse_single_flight. raises_chain. Qed.

Lemma parse_each_raises flights :
  raises_only is_AttributeError (parse_each flights).
Proof.
  induction flights as [|flight rest IH]; cbn; [exact I|].
  apply raises_only_bind; [apply _parse_single_flight_raises|]. intros parsed.
  apply raises_only_bind; [exact IH|]. intros others. exact I.
Qed.

(** The [try] suite of the route parser raises nothing its [except] clause
    catches. *)
Lemma _parse_route_flights_try_raises response :
  raises_only is_AttributeError (_parse_route_flights_try response).
Proof.
  unfold _parse_route_flights_try.
  apply raises_only_bind; [apply flights_of_raises|]. intros flights.
  apply raises_only_bind; [apply parse_each_raises|]. intros parsed. exact I.
Qed.

Lemma _parse_route_flights_raises response :
  raises_only is_AttributeError (_parse_route_flights response).
Proof.
  unfold _parse_route_flights.
  pose proof (_parse_route_flights_try_raises response) as H.
  destruct (_parse_route_flights_try response) as [v|e]; cbn in *; [exact I|].
  destruct e; cbn in *; congruence.
Qed.

Lemma _get_status_description_raises code :
  raises_only is_parse_error (_get_status_description code).
Proof.
  unfold _get_status_description.
  destruct code; cbn [unhashable]; try reflexivity; try exact I.
  now destruct (status_map_get s status_map).
Qed.

Lemma flight_status_record_raises flight :
  raises_only is_parse_error (flight_status_record flight).
Proof.
  unfold flight_status_record.
  repeat (apply raises_only_bind;
          [solve [ apply _get_status_description_raises
                 | eapply raises_only_weaken; [|solve [auto with raises]];
                   intros e He; unfold is_parse_error; now rewrite He ]
          | intros ?]).
  exact I.
Qed.

Lemma _parse_flight_status_try_raises response :
  raises_only is_parse_error (_parse_flight_status_try response).
Proof.
  unfold _parse_flight_status_try.
  apply raises_only_bind.
  { eapply raises_only_weaken; [|apply flights_of_raises].
    intros e He; unfold is_parse_error; now rewrite He. }
  intros flights. destruct (truthy flights) eqn:Ht; cbn; [|exact I].
  apply raises_only_bind; [|intros; apply flight_status_record_raises].
  destruct flights as [| | | |l|]; try exact I.
  destruct l; [discriminate Ht|exact I].
Qed.

Lemma _parse_flight_status_raises response :
  raises_only is_AttributeError (_parse_flight_status response).
Proof.
  unfold _parse_flight_status.
  pose proof (_parse_flight_status_try_raises response) as H.
  destruct (_parse_flight_status_try response) as [v|e]; cbn in *; [exact I|].
  destruct e; cbn in *; try discriminate; auto.
Qed.

(* ================================================================= *)
(** ** The operations on a provider answer *)

Lemma _make_request_answer (w : env) (st : state) method endpoint params resp :
  answers w st method endpoint params resp ->
  fst (_make_request method endpoint params w st) = outcome_with None Ok resp.
Proof.
  intros (tok & st1 & Htok & Hreply).
  rewrite (_make_request_with_token _ _ _ _ method endpoint params Htok).
  cbn [fst]. rewrite Hreply. unfold received, outcome_with.
  destruct (http_error_msg resp); [reflexivity|]. now destruct (json_body resp).
Qed.

(** An operation of the shape [try: response = _make_request(...); return
    parse(response) / except HTTPError: 404 -> not_found]. *)
Lemma handled_answer (w : env) (st : state) method endpoint params resp
    (parse : value -> result value) (not_found : value) :
  (forall v, raises_only is_AttributeError (parse v)) ->
  answers w st method endpoint params resp ->
  fst (try_except
         (response <- _make_request method endpoint params ;;
          lift (parse response))%py
         is_HTTPError (on_404 not_found) w st)
  = outcome_with (Some not_found) parse resp.
Proof.
  intros Hparse (tok & st1 & Htok & Hreply).
  unfold try_except, bind.
  rewrite (_make_request_with_token _ _ _ _ method endpoint params Htok).
  rewrite Hreply. unfold received, outcome_with, lift, on_404, ret, raise.
  destruct (http_error_msg resp); cbn.
  - now destruct (status_code resp =? 404).
  - destruct (json_body resp) as [v|]; cbn; [|reflexivity].
    specialize (Hparse v). destruct (parse v) as [x|e]; cbn; [reflexivity|].
    destruct e; cbn in *; congruence.
Qed.

Lemma get_flight_status_answer (w : env) (st : state) flight_number date resp :
  answers w st "GET" (flight_status_endpoint flight_number date) None resp ->
  fst (get_flight_status flight_number date w st)
  = outcome_with
      (Some (PyDict [("error", PyStr ("Flight " ++ flight_number
                                       ++ " not found for " ++ date))]))
      _parse_flight_status resp.
Proof.
  intros H. unfold get_flight_status.
  now apply handled_answer; [apply _parse_flight_status_raises|].
Qed.

Lemma get_flight_status_by_route_answer (w : env) (st : state)
    origin destination date resp :
  answers w st "GET" (route_endpoint origin destination date) None resp ->
  fst (get_flight_status_by_route origin destination date w st)
  = outcome_with
      (Some (PyDict [("flights", PyList []);
                     ("message", PyStr ("No flights found " ++ origin ++ "→"
                                         ++ destination ++ " on " ++ date))]))
      _parse_route_flights resp.
Proof.
  intros H. unfold get_flight_status_by_route.
  now apply handled_answer; [apply _parse_route_flights_raises|].
Qed.

Lemma get_schedules_answer (w : env) (st : state)
    origin destination date direct_flights resp :
  answers w st "GET" (schedules_endpoint origin destination date)
    (schedules_params direct_flights) resp ->
  fst (get_schedules origin destination date direct_flights w st)
  = outcome_with
      (Some (PyDict [("schedules", PyList []);
                     ("message", PyStr "No schedules found")]))
      Ok resp.
Proof.
  intros (tok & st1 & Htok & Hreply).
  unfold get_schedules, try_except.
  rewrite (_make_request_with_token _ _ _ _ "GET"
             (schedules_endpoint origin destination date)
             (schedules_params direct_flights) Htok).
  rewrite Hreply. unfold received, outcome_with, on_404, ret, raise.
  destruct (http_error_msg resp); cbn.
  - now destruct (status_code resp =? 404).
  - now destruct (json_body resp).
Qed.

Lemma get_arrivals_answer (w : env) (st : state) airport from_time limit resp :
  answers w st "GET" (arrivals_endpoint airport from_time) (limit_params limit)
    resp ->
  fst (get_arrivals airport from_time limit w st) = outcome_with None Ok resp.
Proof. apply _make_request_answer. Qed.

Lemma get_departures_answer (w : env) (st : state) airport from_time limit resp :
  answers w st "GET" (departures_endpoint airport from_time) (limit_params limit)
    resp ->
  fst (get_departures airport from_time limit w st) = outcome_with None Ok resp.
Proof. apply _make_request_answer. Qed.

(** [raise_for_status] raises exactly on the statuses 400-599. *)
Lemma http_error_msg_some (resp : http_response) :
  400 <= status_code resp < 600 -> exists msg, http_error_msg resp = Some msg.
Proof.
  intros H. unfold http_error_msg.
  destruct (status_code resp <? 500) eqn:H5.
  - replace (400 <=? status_code resp) with true by (symmetry; apply Z.leb_le; lia).
    cbn. eauto.
  - rewrite andb_false_r.
    replace (500 <=? status_code resp) with true
      by (symmetry; apply Z.leb_le; apply Z.ltb_ge in H5; lia).
    replace (status_code resp <? 600) with true by (symmetry; apply Z.ltb_lt; lia).
    cbn. eauto.
Qed.

Lemma http_error_msg_none (resp : http_response) :
  status_code resp < 400 \/ 600 <= status_code resp -> http_error_msg resp = None.
Proof.
  intros H. unfold http_error_msg.
  destruct H as [H|H].
  - replace (400 <=? status_code resp) with false by (symmetry; apply Z.leb_gt; lia).
    replace (500 <=? status_code resp) with false by (symmetry; apply Z.leb_gt; lia).
    reflexivity.
  - replace (status_code resp <? 500) with false by (symmetry; apply Z.ltb_ge; lia).
    replace (status_code resp <? 600) with false by (symmetry; apply Z.ltb_ge; lia).
    now rewrite !andb_false_r.
Qed.

(* ================================================================= *)
(** ** Fields of a payload *)

Lemma flights_of_found (response f : value) :
  Flight_field response = Found f -> flights_of response = Ok f.
Proof.
  unfold Flight_field, flights_of, py_get2. cbn.
  destruct response as [| | | | |kvs]; try discriminate. cbn.
  destruct (dict_get "FlightStatusResource" kvs) as [a|]; [|discriminate]. cbn.
  destruct a as [| | | | |kvs1]; try discriminate. cbn.
  destruct (dict_get "Flights" kvs1) as [b|]; [|discriminate]. cbn.
  destruct b as [| | | | |kvs2]; try discriminate. cbn.
  destruct (dict_get "Flight" kvs2) as [c|]; [|discriminate]. congruence.
Qed.

Lemma flights_of_missing (response : value) :
  Flight_field response = Missing -> flights_of response = Ok (PyList []).
Proof.
  unfold Flight_field, flights_of, py_get2. cbn.
  destruct response as [| | | | |kvs]; try discriminate. cbn.
  destruct (dict_get "FlightStatusResource" kvs) as [a|]; [|reflexivity]. cbn.
  destruct a as [| | | | |kvs1]; try discriminate. cbn.
  destruct (dict_get "Flights" kvs1) as [b|]; [|reflexivity]. cbn.
  destruct b as [| | | | |kvs2]; try discriminate. cbn.
  destruct (dict_get "Flight" kvs2) as [c|]; [discriminate|reflexivity].
Qed.

(* ================================================================= *)
(** ** Properties of the operations *)

(** C6. When the provider answers the data request with status 404,
    [get_flight_status(flight_number, date)] returns exactly
    [{"error": "Flight <flight_number> not found for <date>"}] and
    [get_flight_status_by_route(origin, destination, date)] returns exactly
    [{"flights": [], "message": "No flights found <origin>→<destination> on
    <date>"}]; neither raises. *)
Theorem C6_not_found_results (w : env) (st : state) (resp : http_response) :
  status_code resp = 404 ->
  (forall flight_number date,
     answers w st "GET" (flight_status_endpoint flight_number date) None resp ->
     fst (get_flight_status flight_number date w st)
     = Ok (PyDict [("error", PyStr ("Flight " ++ flight_number
                                     ++ " not found for " ++ date))]))
  /\ (forall origin destination date,
        answers w st "GET" (route_endpoint origin destination date) None resp ->
        fst (get_flight_status_by_route origin destination date w st)
        = Ok (PyDict [("flights", PyList []);
                      ("message", PyStr ("No flights found " ++ origin ++ "→"
                                          ++ destination ++ " on " ++ date))])).
Proof.
  intros H404.
  destruct (http_error_msg_some resp) as [msg Hmsg]; [lia|].
  split; intros.
  - erewrite get_flight_status_answer by eassumption.
    unfold outcome_with. now rewrite Hmsg, H404.
  - erewrite get_flight_status_by_route_answer by eassumption.
    unfold outcome_with. now rewrite Hmsg, H404.
Qed.

(** C2, as the code has it. For an answer with an error status (400-599,
    the statuses on which [raise_for_status] raises): [get_flight_status],
    [get_flight_status_by_route] and [get_schedules] return their not-found
    value on a 404 and raise the [HTTPError] carrying the response (status
    code and body) on any other error status; [get_arrivals] and
    [get_departures] have no 404 handler and raise that [HTTPError] on every
    error status, 404 included. *)
Theorem C2_error_statuses (w : env) (st : state) (resp : http_response) :
  400 <= status_code resp < 600 ->
  let http_error (r : result value) :=
    exists msg, r = Raise (HTTPError msg resp) in
  let not_found_or_error (r : result value) (not_found : value) :=
    (status_code resp = 404 -> r = Ok not_found)
    /\ (status_code resp <> 404 -> http_error r) in
  (forall flight_number date,
     answers w st "GET" (flight_status_endpoint flight_number date) None resp ->
     not_found_or_error
       (fst (get_flight_status flight_number date w st))
       (PyDict [("error", PyStr ("Flight " ++ flight_number
                                  ++ " not found for " ++ date))]))
  /\ (forall origin destination date,
        answers w st "GET" (route_endpoint origin destination date) None resp ->
        not_found_or_error
          (fst (get_flight_status_by_route origin destination date w st))
          (PyDict [("flights", PyList []);
                   ("message", PyStr ("No flights found " ++ origin ++ "→"
                                       ++ destination ++ " on " ++ date))]))
  /\ (forall origin destination date direct_flights,
        answers w st "GET" (schedules_endpoint origin destination date)
          (schedules_params direct_flights) resp ->
        not_found_or_error
          (fst (get_schedules origin destination date direct_flights w st))
          (PyDict [("schedules", PyList []);
                   ("message", PyStr "No schedules found")]))
  /\ (forall airport from_time limit,
        answers w st "GET" (arrivals_endpoint airport from_time)
          (limit_params limit) resp ->
        http_error (fst (get_arrivals airport from_time limit w st)))
  /\ (forall airport from_time limit,
        answers w st "GET" (departures_endpoint airport from_time)
          (limit_params limit) resp ->
        http_error (fst (get_departures airport from_time limit w st))).
Proof.
  intros Hstatus http_error not_found_or_error.
  destruct (http_error_msg_some resp Hstatus) as [msg Hmsg].
  assert (forall nf parse, not_found_or_error (outcome_with (Some nf) parse resp) nf)
    as Hhandled.
  { intros nf parse. unfold outcome_with. rewrite Hmsg. split.
    - now intros ->.
    - intros Hne%Z.eqb_neq. rewrite Hne. now exists msg. }
  assert (http_error (outcome_with None Ok resp)) as Hplain.
  { unfold outcome_with. rewrite Hmsg. now exists msg. }
  repeat split; intros.
  - erewrite get_flight_status_answer by eassumption. now apply Hhandled.
  - erewrite get_flight_status_answer by eassumption. now apply Hhandled.
  - erewrite get_flight_status_by_route_answer by eassumption. now apply Hhandled.
  - erewrite get_flight_status_by_route_answer by eassumption. now apply Hhandled.
  - erewrite get_schedules_answer by eassumption. now apply Hhandled.
  - erewrite get_schedules_answer by eassumption. now apply Hhandled.
  - erewrite get_arrivals_answer by eassumption. exact Hplain.
  - erewrite get_departures_answer by eassumption. exact Hplain.
Qed.

(** C10. When the provider answers the data request of [get_flight_status]
    with a 2xx status and a JSON body in which
    [FlightStatusResource.Flights.Flight] is absent (a key on the path is
    missing) or holds a false value (an empty list, an empty object, null,
    ...), the operation returns [{"error": "No flight data in response"}]
    and raises nothing. *)
Theorem C10_no_flight_data (w : env) (st : state) flight_number date
    (resp : http_response) (payload : value) :
  answers w st "GET" (flight_status_endpoint flight_number date) None resp ->
  200 <= status_code resp < 300 ->
  json_body resp = Some payload ->
  Flight_field payload = Missing
  \/ (exists f, Flight_field payload = Found f /\ truthy f = false) ->
  fst (get_flight_status flight_number date w st)
  = Ok (PyDict [("error", PyStr "No flight data in response")]).
Proof.
  intros Hans Hstatus Hjson Hfield.
  erewrite get_flight_status_answer by eassumption.
  unfold outcome_with. rewrite http_error_msg_none by lia. rewrite Hjson.
  unfold _parse_flight_status, _parse_flight_status_try.
  destruct Hfield as [Hmissing | (f & Hfound & Hfalse)].
  - now rewrite (flights_of_missing _ Hmissing).
  - rewrite (flights_of_found _ _ Hfound). cbn. now rewrite Hfalse.
Qed.

Lemma get_flight_status_payload (w : env) (st : state) flight_number date payload :
  delivers w st (flight_status_endpoint flight_number date) payload ->
  fst (get_flight_status flight_number date w st) = _parse_flight_status payload.
Proof.
  intros (resp & Hans & Hstatus & Hjson).
  erewrite get_flight_status_answer by eassumption.
  unfold outcome_with. now rewrite Hstatus, Hjson.
Qed.

Lemma get_flight_status_by_route_payload (w : env) (st : state)
    origin destination date payload :
  delivers w st (route_endpoint origin destination date) payload ->
  fst (get_flight_status_by_route origin destination date w st)
  = _parse_route_flights payload.
Proof.
  intros (resp & Hans & Hstatus & Hjson).
  erewrite get_flight_status_by_route_answer by eassumption.
  unfold outcome_with. now rewrite Hstatus, Hjson.
Qed.

(** C7, as the code has it. For every non-empty flight object [f], a payload
    whose [FlightStatusResource.Flights.Flight] is [f] and one where it is
    the list [[f]] are parsed alike: [get_flight_status] reads the same
    flight and gives the same result (a caught parse failure echoes each
    payload under [raw]), and [get_flight_status_by_route] gives the same
    [{"flights": [...], "count": 1}] result. *)
Theorem C7_single_flight_as_list (kvs : list (string * value))
    (payload payload' : value) :
  kvs <> [] ->
  let f := PyDict kvs in
  Flight_field payload = Found f ->
  Flight_field payload' = Found (PyList [f]) ->
  same_up_to_raw payload payload'
    (_parse_flight_status payload) (_parse_flight_status payload')
  /\ _parse_route_flights payload = _parse_route_flights payload'
  /\ (forall w st w' st' flight_number date,
        delivers w st (flight_status_endpoint flight_number date) payload ->
        delivers w' st' (flight_status_endpoint flight_number date) payload' ->
        same_up_to_raw payload payload'
          (fst (get_flight_status flight_number date w st))
          (fst (get_flight_status flight_number date w' st')))
  /\ (forall w st w' st' origin destination date,
        delivers w st (route_endpoint origin destination date) payload ->
        delivers w' st' (route_endpoint origin destination date) payload' ->
        fst (get_flight_status_by_route origin destination date w st)
        = fst (get_flight_status_by_route origin destination date w' st')).
Proof.
  intros Hne f Hone Hlist. subst f.
  destruct kvs as [|kv kvs]; [contradiction|].
  set (f := PyDict (kv :: kvs)) in *.
  assert (_parse_flight_status_try payload = flight_status_record f
          /\ _parse_flight_status_try payload' = flight_status_record f)
    as [Htry Htry'].
  { unfold _parse_flight_status_try.
    rewrite (flights_of_found _ _ Hone), (flights_of_found _ _ Hlist).
    split; reflexivity. }
  assert (same_up_to_raw payload payload'
            (_parse_flight_status payload) (_parse_flight_status payload'))
    as Hstatus.
  { unfold _parse_flight_status, Pure.try_except. rewrite Htry, Htry'.
    destruct (flight_status_record f) as [v|e]; [now left|].
    destruct (is_KeyError_or_TypeError e); [right; eauto|now left]. }
  assert (_parse_route_flights payload = _parse_route_flights payload') as Hroute.
  { unfold _parse_route_flights, _parse_route_flights_try.
    rewrite (flights_of_found _ _ Hone), (flights_of_found _ _ Hlist).
    reflexivity. }
  repeat split; auto.
  - intros w st w' st' flight_number date Hd Hd'.
    now rewrite (get_flight_status_payload _ _ _ _ _ Hd),
                (get_flight_status_payload _ _ _ _ _ Hd').
  - intros w st w' st' origin destination date Hd Hd'.
    now rewrite (get_flight_status_by_route_payload _ _ _ _ _ _ Hd),
                (get_flight_status_by_route_payload _ _ _ _ _ _ Hd').
Qed.

(* ================================================================= *)
(** ** The status table *)

Lemma status_map_get_none (code : string) (table : list (string * string)) :
  ~ In code (map fst table) -> status_map_get code table = None.
Proof.
  induction table as [|[k d] rest IH]; cbn; [reflexivity|].
  intros Hnot. destruct (String.eqb_spec code k) as [->|Hne].
  - exfalso. apply Hnot. now left.
  - apply IH. intros Hin. apply Hnot. now right.
Qed.

(** C8. The status-code translation is total on strings: each of the eleven
    codes of the table maps to its description ("DL" to "Delayed"), and
    every other string [c] maps to "Unknown (<c>)" ("ZZ" to "Unknown (ZZ)");
    no string makes it raise. *)
Theorem C8_status_description :
  Forall (fun entry => _get_status_description (PyStr (fst entry))
                       = Ok (snd entry))
    [("CD", "Cancelled"); ("DP", "Departed"); ("LD", "Landed");
     ("RT", "Rerouted"); ("DV", "Diverted"); ("HD", "On Hold");
     ("FE", "Flight Early"); ("NI", "Next Information"); ("OT", "On Time");
     ("DL", "Delayed"); ("NO", "No Status")]
  /\ (forall c,
        ~ In c ["CD"; "DP"; "LD"; "RT"; "DV"; "HD"; "FE"; "NI"; "OT"; "DL"; "NO"] ->
        _get_status_description (PyStr c) = Ok ("Unknown (" ++ c ++ ")"))
  /\ _get_status_description (PyStr "ZZ") = Ok "Unknown (ZZ)"
  /\ (forall c, exists description,
        _get_status_description (PyStr c) = Ok description).
Proof.
  split; [repeat constructor|].
  split; [|split; [reflexivity|]].
  - intros c Hnot. unfold _get_status_description. cbn [unhashable].
    now rewrite (status_map_get_none c status_map Hnot).
  - intros c. unfold _get_status_description. cbn [unhashable].
    destruct (status_map_get c status_map); eauto.
Qed.

(* ================================================================= *)
(** ** Failures of the token request and of the transport *)

(** No operation catches anything but [HTTPError]: whatever else
    [_make_request] raises reaches the caller of the operation as it is. *)
Lemma call_raise (op : operation) (w : env) (st st1 : state) (e : exn) :
  _make_request "GET" (endpoint_of op) (params_of op) w st = (Raise e, st1) ->
  is_HTTPError e = false ->
  call op w st = (Raise e, st1).
Proof.
  intros Hrun He.
  destruct op; cbn [call endpoint_of params_of] in *; try exact Hrun.
  - unfold get_flight_status, try_except, bind. rewrite Hrun. now rewrite He.
  - unfold get_flight_status_by_route, try_except, bind. rewrite Hrun.
    now rewrite He.
  - unfold get_schedules, try_except. rewrite Hrun. now rewrite He.
Qed.

Lemma refresh_no_grant (w : env) (st : state) (msg : string) :
  http w (sent st) (auth_request (self st)) = NoReply msg
  \/ (exists resp, http w (sent st) (auth_request (self st)) = Reply resp
                   /\ http_error_msg resp = Some msg) ->
  refresh_access_token w st
  = (Raise (RuntimeError ("Lufthansa API authentication failed: " ++ msg)),
     pushed st (auth_request (self st))).
Proof.
  unfold refresh_access_token, try_except, bind, get_self, requests_request,
    raise_for_status, raise, pushed.
  intros [Hnone | (resp & Hreply & Hmsg)].
  - now rewrite Hnone.
  - rewrite Hreply. cbn. now rewrite Hmsg.
Qed.

(** X1. When a refresh is due and the auth endpoint does not answer, or
    answers with an error status (400-599), every operation raises
    [RuntimeError("Lufthansa API authentication failed: <reason>")]; the auth
    POST is the only request sent (no retry, no data request) and the
    client's attributes, token and expiry included, are unchanged. *)
Theorem X1_auth_failure (op : operation) (w : env) (st : state) (msg : string) :
  token_fresh w st = false ->
  let c := self st in
  http w (sent st) (auth_request c) = NoReply msg
  \/ (exists resp, http w (sent st) (auth_request c) = Reply resp
                   /\ http_error_msg resp = Some msg) ->
  fst (call op w st)
  = Raise (RuntimeError ("Lufthansa API authentication failed: " ++ msg))
  /\ sent (snd (call op w st)) = (sent st ++ [auth_request c])%list
  /\ self (snd (call op w st)) = c.
Proof.
  intros Hf c Hfail. subst c.
  assert (_make_request "GET" (endpoint_of op) (params_of op) w st
          = (Raise (RuntimeError ("Lufthansa API authentication failed: " ++ msg)),
             pushed (after_check st) (auth_request (self st)))) as Hrun.
  { apply _make_request_without_token.
    rewrite (_get_access_token_stale _ _ Hf).
    pose proof (refresh_no_grant w (after_check st) msg) as Hno.
    rewrite after_check_sent, after_check_self in Hno. now apply Hno. }
  rewrite (call_raise op w st _ _ Hrun eq_refl). cbn.
  now rewrite after_check_sent, after_check_self.
Qed.

(** X2. When a refresh is due and the auth endpoint answers successfully
    with a JSON object that has no [access_token], every operation raises
    [KeyError('access_token')] (not the [RuntimeError] of a failed
    authentication); nothing is stored and no data request is sent. *)
Theorem X2_grant_without_token (op : operation) (w : env) (st : state)
    resp kvs :
  token_fresh w st = false ->
  let c := self st in
  http w (sent st) (auth_request c) = Reply resp ->
  http_error_msg resp = None ->
  json_body resp = Some (PyDict kvs) ->
  dict_get "access_token" kvs = None ->
  fst (call op w st) = Raise (KeyError "access_token")
  /\ sent (snd (call op w st)) = (sent st ++ [auth_request c])%list
  /\ self (snd (call op w st)) = c.
Proof.
  intros Hf c Hreply Hstatus Hjson Hkey. subst c.
  assert (_make_request "GET" (endpoint_of op) (params_of op) w st
          = (Raise (KeyError "access_token"),
             pushed (after_check st) (auth_request (self st)))) as Hrun.
  { apply _make_request_without_token.
    rewrite (_get_access_token_stale _ _ Hf).
    unfold refresh_access_token, try_except, bind, get_self, requests_request,
      raise_for_status, response_json, lift, ret, pushed.
    rewrite after_check_sent, after_check_self, Hreply. cbn.
    rewrite Hstatus. cbn. rewrite Hjson. cbn. now rewrite Hkey. }
  rewrite (call_raise op w st _ _ Hrun eq_refl). cbn.
  now rewrite after_check_sent, after_check_self.
Qed.

(** X3. When a refresh is due and the auth endpoint grants a token whose
    [expires_in] is not a number (a string, null, a list or an object),
    every operation raises [TypeError] and no data request is sent; the new
    token has been stored by then, while the expiry keeps its old value. *)
Theorem X3_grant_with_bad_lifetime (op : operation) (w : env) (st : state)
    resp kvs tok expires_in :
  token_fresh w st = false ->
  let c := self st in
  http w (sent st) (auth_request c) = Reply resp ->
  http_error_msg resp = None ->
  json_body resp = Some (PyDict kvs) ->
  dict_get "access_token" kvs = Some tok ->
  dict_get "expires_in" kvs = Some expires_in ->
  (forall z, expires_in <> PyInt z) ->
  (forall b, expires_in <> PyBool b) ->
  (exists msg, fst (call op w st) = Raise (TypeError msg))
  /\ sent (snd (call op w st)) = (sent st ++ [auth_request c])%list
  /\ _access_token (self (snd (call op w st))) = tok
  /\ _token_expires_at (self (snd (call op w st))) = _token_expires_at c.
Proof.
  intros Hf c Hreply Hstatus Hjson Htok Hexp Hint Hbool. subst c.
  assert (exists msg issued,
            py_add issued expires_in = Raise (TypeError msg)
            /\ issued = time_time w (clock_reads (after_check st)))
    as (msg & issued & Hadd & Hissued).
  { destruct expires_in; try (eexists _, _; split; reflexivity).
    - now contradiction (Hbool b).
    - now contradiction (Hint z). }
  assert (_make_request "GET" (endpoint_of op) (params_of op) w st
          = (Raise (TypeError msg),
             {| self := with_access_token (self st) tok;
                clock_reads := S (clock_reads (after_check st));
                sent := sent st ++ [auth_request (self st)] |})) as Hrun.
  { apply _make_request_without_token.
    rewrite (_get_access_token_stale _ _ Hf).
    unfold refresh_access_token, try_except, bind, get_self, requests_request,
      raise_for_status, response_json, lift, ret, set_access_token, time_now.
    rewrite after_check_sent, after_check_self, Hreply. cbn.
    rewrite Hstatus. cbn. rewrite Hjson. cbn. rewrite Htok, Hexp. cbn.
    rewrite <- Hissued, Hadd. reflexivity. }
  rewrite (call_raise op w st _ _ Hrun eq_refl). cbn. eauto.
Qed.

(** X4. A granted token is reused by the next request: when a request that
    needed a refresh was granted a token (a true value) and the following
    request starts more than 60 seconds before the granted expiry, the two
    requests together send the auth POST once, followed by the two data
    requests, both carrying the granted token. *)
Theorem X4_granted_token_serves_next_request (w : env) (st : state)
    method1 endpoint1 params1 method2 endpoint2 params2 tok expires_at :
  token_fresh w st = false ->
  grants w (after_check st) tok expires_at ->
  truthy tok = true ->
  let c := self st in
  let st1 := snd (_make_request method1 endpoint1 params1 w st) in
  time_time w (clock_reads st1) < expires_at - 60 ->
  sent (snd (_make_request method2 endpoint2 params2 w st1))
  = (sent st ++ [auth_request c;
                 data_request c method1 endpoint1 params1 tok;
                 data_request c method2 endpoint2 params2 tok])%list.
Proof.
  intros Hf Hg Htok c st1 Hnow. subst c.
  assert (self st1 = with_token_expires_at (with_access_token (self st) tok) expires_at
          /\ sent st1 = (sent st ++ [auth_request (self st);
                                     data_request (self st) method1 endpoint1
                                       params1 tok])%list) as [Hself1 Hsent1].
  { subst st1.
    assert (_get_access_token w st
            = (Ok tok, refreshed (after_check st) tok expires_at)) as Hget.
    { rewrite (_get_access_token_stale _ _ Hf). apply refresh_ok_iff. eauto. }
    rewrite (_make_request_with_token _ _ _ _ method1 endpoint1 params1 Hget).
    cbn. rewrite after_check_self, after_check_sent.
    split; [reflexivity|]. now rewrite <- app_assoc. }
  assert (token_fresh w st1 = true) as Hf1.
  { apply token_fresh_true. rewrite Hself1. cbn. auto. }
  destruct (_make_request_cases w st1 method2 endpoint2 params2)
    as [(_ & _ & Hsent) | [(Hf' & _) | (Hf' & _)]]; [|congruence|congruence].
  rewrite Hsent, Hsent1, Hself1, <- app_assoc. cbn. reflexivity.
Qed.

(** X5. When the token is obtained and the transport of the data request
    fails (connection error or timeout), every operation raises the
    [RequestException] of the transport as it is; the data request was sent
    once (no retry). *)
Theorem X5_transport_failure (op : operation) (w : env) (st : state)
    (msg : string) :
  no_answer w st "GET" (endpoint_of op) (params_of op) msg ->
  let c := self st in
  let st' := snd (call op w st) in
  fst (call op w st) = Raise (RequestException msg)
  /\ exists tok,
       let req := data_request c "GET" (endpoint_of op) (params_of op) tok in
       sent st' = (sent st ++ [req])%list
       \/ sent st' = (sent st ++ [auth_request c; req])%list.
Proof.
  intros (tok & st1 & Htok & Hnone) c st'. subst c st'.
  pose proof (_make_request_with_token _ _ _ _ "GET" (endpoint_of op)
                (params_of op) Htok) as Hrun.
  cbn zeta in Hrun. rewrite Hnone in Hrun. cbn [received] in Hrun.
  rewrite (call_raise op w st _ _ Hrun eq_refl). cbn [fst snd pushed sent].
  split; [reflexivity|]. exists tok. cbn zeta.
  destruct (token_fresh w st) eqn:Hf.
  - left. rewrite (_get_access_token_fresh _ _ Hf) in Htok.
    now injection Htok as _ <-.
  - right. rewrite (_get_access_token_stale _ _ Hf) in Htok.
    apply refresh_sent in Htok as [Hsent Hbase].
    rewrite Hsent, after_check_sent, after_check_self, <- app_assoc.
    cbn. do 3 f_equal. apply data_request_base_url.
    now rewrite Hbase, after_check_self.
Qed.

(** X6. The operations other than the two flight-status ones do not reshape
    what they receive: when the provider answers the data request with a
    status that passes [raise_for_status] and a JSON body, [get_arrivals],
    [get_departures], [get_schedules], [get_airport], [get_airline] and
    [get_aircraft] return the decoded body itself. *)
Theorem X6_pass_through (op : operation) (w : env) (st : state)
    (resp : http_response) (payload : value) :
  passes_through op = true ->
  answers w st "GET" (endpoint_of op) (params_of op) resp ->
  http_error_msg resp = None ->
  json_body resp = Some payload ->
  fst (call op w st) = Ok payload.
Proof.
  intros Hop Hans Hstatus Hjson.
  assert (outcome_with None Ok resp = Ok payload) as Hplain
    by (unfold outcome_with; now rewrite Hstatus, Hjson).
  destruct op; try discriminate Hop; cbn [call endpoint_of params_of] in *.
  - now erewrite get_arrivals_answer by eassumption.
  - now erewrite get_departures_answer by eassumption.
  - erewrite get_schedules_answer by eassumption.
    unfold outcome_with. now rewrite Hstatus, Hjson.
  - unfold get_airport. now erewrite _make_request_answer by eassumption.
  - unfold get_airline. now erewrite _make_request_answer by eassumption.
  - unfold get_aircraft. now erewrite _make_request_answer by eassumption.
Qed.

(* ================================================================= *)
(** ** The parsers on well-shaped and ill-shaped flights *)

Lemma py_get_dict (kvs : list (string * value)) key default :
  py_get (PyDict kvs) key default = Ok (item_or key default kvs).
Proof. unfold py_get, item_or. now destruct (dict_get key kvs). Qed.

(** [.get] on what [kvs.get(key, {})] returned. *)
Lemma py_get_item (kvs : list (string * value)) key k default :
  py_get (item_or key (PyDict []) kvs) k default
  = if object_or_absent key kvs
    then Ok (item_or k default (object_at key kvs))
    else Raise (no_get (item_or key (PyDict []) kvs)).
Proof.
  unfold item_or, object_or_absent, object_at, no_get.
  destruct (dict_get key kvs) as [[]|]; try reflexivity.
  cbn. now destruct (dict_get k items).
Qed.

Lemma py_get2_dict (kvs : list (string * value)) k1 k2 default :
  py_get2 (PyDict kvs) k1 k2 default
  = if object_or_absent k1 kvs
    then Ok (item_or k2 default (object_at k1 kvs))
    else Raise (no_get (item_or k1 (PyDict []) kvs)).
Proof. unfold py_get2. rewrite py_get_dict. cbn. apply py_get_item. Qed.

Lemma py_get2_item (kvs : list (string * value)) key k1 k2 default :
  py_get2 (item_or key (PyDict []) kvs) k1 k2 default
  = if object_or_absent key kvs
    then py_get2 (PyDict (object_at key kvs)) k1 k2 default
    else Raise (no_get (item_or key (PyDict []) kvs)).
Proof.
  unfold py_get2 at 1. rewrite py_get_item.
  destruct (object_or_absent key kvs) eqn:Hk; [|reflexivity].
  cbn. unfold py_get2. rewrite py_get_dict. reflexivity.
Qed.

Lemma _parse_single_flight_shape (flight : list (string * value)) :
  (route_flight_shape flight = true ->
   _parse_single_flight (PyDict flight) = Ok (route_entry flight))
  /\ (route_flight_shape flight = false ->
      exists msg, _parse_single_flight (PyDict flight) = Raise (AttributeError msg)).
Proof.
  unfold route_flight_shape, _parse_single_flight, route_entry.
  rewrite !py_get_dict. cbn [Pure.bind].
  rewrite !py_get2_dict, !py_get2_item, !py_get_item, !py_get2_dict.
  destruct (object_or_absent "MarketingCarrier" flight);
    [|rewrite !andb_false_r; cbn; split; [discriminate|unfold no_get; eauto]].
  destruct (object_or_absent "FlightStatus" flight);
    [|rewrite !andb_false_r; cbn; split; [discriminate|unfold no_get; eauto]].
  destruct (object_or_absent "Departure" flight);
    [|cbn; split; [discriminate|unfold no_get; eauto]].
  destruct (object_or_absent "ScheduledTimeLocal" (object_at "Departure" flight));
    [|rewrite !andb_false_r; cbn; split; [discriminate|unfold no_get; eauto]].
  destruct (object_or_absent "Arrival" flight);
    [|cbn; split; [discriminate|unfold no_get; eauto]].
  destruct (object_or_absent "ScheduledTimeLocal" (object_at "Arrival" flight));
    cbn; split; try discriminate; unfold no_get; eauto.
Qed.

(** X8. [_parse_single_flight] on a flight object succeeds exactly when
    every nested field it walks through ([Departure], [Arrival],
    [MarketingCarrier], [FlightStatus], and [ScheduledTimeLocal] of the
    departure and of the arrival) is an object or absent; it then returns the
    six-item entry in which every missing field is the empty string, and
    otherwise it raises [AttributeError]. *)
Theorem X8_single_flight_shape (flight : list (string * value)) :
  ((exists entry, _parse_single_flight (PyDict flight) = Ok entry)
   <-> route_flight_shape flight = true)
  /\ (forall entry, _parse_single_flight (PyDict flight) = Ok entry ->
                    entry = route_entry flight)
  /\ (forall e, _parse_single_flight (PyDict flight) = Raise e ->
                exists msg, e = AttributeError msg).
Proof.
  destruct (_parse_single_flight_shape flight) as [Hok Hbad].
  destruct (route_flight_shape flight).
  - rewrite (Hok eq_refl). repeat split; eauto; congruence.
  - destruct (Hbad eq_refl) as [msg ->]. repeat split.
    + intros [entry H]. discriminate H.
    + discriminate.
    + discriminate.
    + intros e [= <-]. eauto.
Qed.

Lemma _parse_single_flight_not_object (flight : value) :
  (forall kvs, flight <> PyDict kvs) ->
  exists msg, _parse_single_flight flight = Raise (AttributeError msg).
Proof.
  intros Hnot. destruct flight; try (eexists; reflexivity).
  now contradiction (Hnot items).
Qed.

Lemma parse_each_shape (flights : list value) :
  (forallb is_route_flight flights = true ->
   parse_each flights = Ok (map route_entry_of flights))
  /\ (forallb is_route_flight flights = false ->
      exists msg, parse_each flights = Raise (AttributeError msg)).
Proof.
  induction flights as [|flight rest [IHok IHbad]]; [split; [reflexivity|discriminate]|].
  cbn [forallb parse_each map].
  destruct flight as [| | | | |kvs];
    try (cbn; split; [discriminate|eauto]; fail).
  cbn [is_route_flight route_entry_of].
  destruct (_parse_single_flight_shape kvs) as [Hok Hbad].
  destruct (route_flight_shape kvs).
  - rewrite (Hok eq_refl). cbn [andb Pure.bind].
    destruct (forallb is_route_flight rest).
    + split; [intros _|discriminate]. now rewrite (IHok eq_refl).
    + split; [discriminate|intros _].
      destruct (IHbad eq_refl) as [msg ->]. cbn. eauto.
  - destruct (Hbad eq_refl) as [msg ->]. cbn. split; [discriminate|eauto].
Qed.

(** X7. [get_flight_status_by_route] on a successfully received payload
    whose [Flight] field is a list: when every element is a flight object of
    the shape the parser needs, the result holds one entry per flight, in the
    order of the payload, and [count] is the number of flights; when some
    element is not, the operation raises [AttributeError]. *)
Theorem X7_route_entries (w : env) (st : state) origin destination date
    (payload : value) (flights : list value) :
  delivers w st (route_endpoint origin destination date) payload ->
  Flight_field payload = Found (PyList flights) ->
  let res := fst (get_flight_status_by_route origin destination date w st) in
  (forallb is_route_flight flights = true ->
   res = Ok (PyDict [("flights", PyList (map route_entry_of flights));
                     ("count", PyInt (Z.of_nat (List.length flights)))]))
  /\ (forallb is_route_flight flights = false ->
      exists msg, res = Raise (AttributeError msg)).
Proof.
  intros Hd Hfield res. subst res.
  rewrite (get_flight_status_by_route_payload _ _ _ _ _ _ Hd).
  unfold _parse_route_flights, _parse_route_flights_try.
  rewrite (flights_of_found _ _ Hfield). cbn [Pure.bind].
  destruct (parse_each_shape flights) as [Hok Hbad]. split.
  - intros H. rewrite (Hok H). cbn. now rewrite length_map.
  - intros H. destruct (Hbad H) as [msg ->]. cbn. eauto.
Qed.

Lemma _get_status_description_explicit (code : value) :
  _get_status_description code
  = if unhashable code then Raise (unhashable_error code)
    else Ok (description_of code).
Proof.
  unfold _get_status_description, description_of, unhashable_error.
  destruct code; cbn [unhashable]; try reflexivity.
  now destruct (status_map_get s status_map).
Qed.

Ltac ill_shaped :=
  rewrite ?andb_false_r; cbn;
  split; [discriminate|intros _; eexists; split; [reflexivity|left; unfold no_get; eauto]].

Lemma flight_status_record_shape (flight : list (string * value)) :
  (status_flight_shape flight = true ->
   flight_status_record (PyDict flight)
   = if unhashable (status_code_of flight)
     then Raise (unhashable_error (status_code_of flight))
     else Ok (status_record flight))
  /\ (status_flight_shape flight = false ->
      exists e, flight_status_record (PyDict flight) = Raise e /\ record_error e).
Proof.
  unfold status_flight_shape, side_shape, flight_status_record, status_record,
    side_record, status_code_of.
  rewrite !py_get_dict. cbn [Pure.bind].
  rewrite !py_get2_dict, !py_get2_item, !py_get_item, !py_get2_dict.
  destruct (object_or_absent "MarketingCarrier" flight); [|ill_shaped].
  destruct (object_or_absent "FlightStatus" flight); [|ill_shaped].
  cbn [Pure.bind andb]. rewrite _get_status_description_explicit.
  destruct (unhashable (item_or "Code" (PyStr "") (object_at "FlightStatus" flight)))
    eqn:Hcode.
  { cbn. split; [reflexivity|]. intros _. eexists. split; [reflexivity|].
    right. eauto. }
  destruct (object_or_absent "Departure" flight); [|ill_shaped].
  destruct (object_or_absent "Terminal" (object_at "Departure" flight));
    [|ill_shaped].
  destruct (object_or_absent "ScheduledTimeLocal" (object_at "Departure" flight));
    [|ill_shaped].
  destruct (object_or_absent "EstimatedTimeLocal" (object_at "Departure" flight));
    [|ill_shaped].
  destruct (object_or_absent "ActualTimeLocal" (object_at "Departure" flight));
    [|ill_shaped].
  destruct (object_or_absent "Arrival" flight); [|ill_shaped].
  destruct (object_or_absent "Terminal" (object_at "Arrival" flight));
    [|ill_shaped].
  destruct (object_or_absent "ScheduledTimeLocal" (object_at "Arrival" flight));
    [|ill_shaped].
  destruct (object_or_absent "EstimatedTimeLocal" (object_at "Arrival" flight));
    [|ill_shaped].
  destruct (object_or_absent "ActualTimeLocal" (object_at "Arrival" flight));
    [|ill_shaped].
  destruct (object_or_absent "Equipment" flight); [|ill_shaped].
  cbn. split; [reflexivity|discriminate].
Qed.

Lemma flight_status_record_outcome (flight : value) :
  match flight_status_record flight with
  | Ok v => exists kvs, flight = PyDict kvs
                        /\ status_flight_shape kvs = true
                        /\ unhashable (status_code_of kvs) = false
                        /\ v = status_record kvs
  | Raise e => record_error e
  end.
Proof.
  destruct flight as [| | | | |kvs]; try (left; eexists; reflexivity).
  destruct (flight_status_record_shape kvs) as [Hok Hbad].
  destruct (status_flight_shape kvs) eqn:Hshape.
  - rewrite (Hok eq_refl).
    destruct (unhashable (status_code_of kvs)) eqn:Hcode.
    + right. eauto.
    + exists kvs. auto.
  - destruct (Hbad eq_refl) as (e & -> & He). exact He.
Qed.

(** The [try] suite of [_parse_flight_status] hands the first flight to
    [flight_status_record], and nothing else. *)
Lemma _parse_flight_status_try_first (payload flights : value) :
  flights_of payload = Ok flights ->
  _parse_flight_status_try payload
  = match first_flight flights with
    | Some flight => flight_status_record flight
    | None => Ok (PyDict [("error", PyStr "No flight data in response")])
    end.
Proof.
  intros Hflights. unfold _parse_flight_status_try. rewrite Hflights.
  cbn [Pure.bind]. unfold first_flight.
  destruct flights as [|b|z|s|l|kvs]; cbn [truthy negb]; try reflexivity.
  - now destruct b.
  - now destruct (z =? 0).
  - now destruct (String.eqb s "").
  - now destruct l.
  - now destruct kvs.
Qed.

(** X9. [get_flight_status] on a successfully received payload whose first
    flight (the [Flight] field itself, or the first element when it is a
    list) is an object with every nested field an object or absent: the
    result is the flat record of that flight, with every missing field
    defaulted (the empty string; "unknown" for the status) and the status
    described by the table; unless its status [Code] is a list or an object,
    in which case the result is [{"error": "Failed to parse flight status:
    unhashable type: ...", "raw": <payload>}]. *)
Theorem X9_status_record (w : env) (st : state) flight_number date
    (payload flights : value) (flight : list (string * value)) :
  delivers w st (flight_status_endpoint flight_number date) payload ->
  Flight_field payload = Found flights ->
  first_flight flights = Some (PyDict flight) ->
  status_flight_shape flight = true ->
  fst (get_flight_status flight_number date w st)
  = if unhashable (status_code_of flight)
    then Ok (parse_failure (unhashable_error (status_code_of flight)) payload)
    else Ok (status_record flight).
Proof.
  intros Hd Hfield Hfirst Hshape.
  rewrite (get_flight_status_payload _ _ _ _ _ Hd).
  unfold _parse_flight_status, Pure.try_except.
  rewrite (_parse_flight_status_try_first _ _ (flights_of_found _ _ Hfield)).
  rewrite Hfirst.
  destruct (flight_status_record_shape flight) as [Hok _].
  rewrite (Hok Hshape).
  now destruct (unhashable (status_code_of flight)).
Qed.

(** X10. [_parse_flight_status] looks at the first flight only: two payloads
    whose [Flight] fields have the same first flight (whatever else a list
    holds, well-formed or not) are parsed to the same result, or raise the
    same exception; a caught failure gives the same error text and echoes
    each payload under [raw]. *)
Theorem X10_first_flight_only (payload payload' flights flights' : value) :
  Flight_field payload = Found flights ->
  Flight_field payload' = Found flights' ->
  first_flight flights = first_flight flights' ->
  _parse_flight_status payload = _parse_flight_status payload'
  \/ exists e,
       _parse_flight_status payload = Ok (parse_failure e payload)
       /\ _parse_flight_status payload' = Ok (parse_failure e payload').
Proof.
  intros Hfield Hfield' Hfirst.
  unfold _parse_flight_status, Pure.try_except.
  rewrite (_parse_flight_status_try_first _ _ (flights_of_found _ _ Hfield)).
  rewrite (_parse_flight_status_try_first _ _ (flights_of_found _ _ Hfield')).
  rewrite <- Hfirst.
  destruct (first_flight flights) as [flight|]; [|now left].
  destruct (flight_status_record flight) as [v|e]; [now left|].
  destruct (is_KeyError_or_TypeError e); [right; exists e; split; reflexivity|now left].
Qed.

(** The flights the parsers read are the [Flight] field of the payload,
    whenever there is a first flight among them. *)
Lemma flights_of_first (payload flights flight : value) :
  flights_of payload = Ok flights ->
  first_flight flights = Some flight ->
  Flight_field payload = Found flights.
Proof.
  unfold Flight_field, flights_of, py_get2. cbn.
  destruct payload as [| | | | |kvs]; try discriminate. cbn.
  destruct (dict_get "FlightStatusResource" kvs) as [a|]; cbn.
  - destruct a as [| | | | |kvs1]; try discriminate. cbn.
    destruct (dict_get "Flights" kvs1) as [b|]; cbn.
    + destruct b as [| | | | |kvs2]; try discriminate. cbn.
      destruct (dict_get "Flight" kvs2) as [c|].
      * intros H _. injection H as ->. reflexivity.
      * intros H. injection H as <-. discriminate.
    + intros H. injection H as <-. discriminate.
  - intros H. injection H as <-. discriminate.
Qed.

Ltac not_caught :=
  rewrite ?andb_false_r; cbn;
  intros Hraise Hcaught; injection Hraise as <-; discriminate Hcaught.

(** The one exception of [flight_status_record] that the handler catches is
    the [TypeError] of the status [Code] of that flight. *)
Lemma flight_status_record_caught (flight : value) (e : exn) :
  flight_status_record flight = Raise e ->
  is_KeyError_or_TypeError e = true ->
  exists kvs,
    flight = PyDict kvs
    /\ unhashable (status_code_of kvs) = true
    /\ e = unhashable_error (status_code_of kvs).
Proof.
  destruct flight as [| | | | |kvs]; try not_caught.
  unfold flight_status_record, status_code_of.
  rewrite !py_get_dict. cbn [Pure.bind].
  rewrite !py_get2_dict, !py_get2_item, !py_get_item, !py_get2_dict.
  destruct (object_or_absent "MarketingCarrier" kvs); [|not_caught].
  destruct (object_or_absent "FlightStatus" kvs); [|not_caught].
  cbn [Pure.bind andb]. rewrite _get_status_description_explicit.
  destruct (unhashable (item_or "Code" (PyStr "") (object_at "FlightStatus" kvs)))
    eqn:Hcode.
  { cbn. intros Hraise _. injection Hraise as <-. exists kvs. auto. }
  destruct (object_or_absent "Departure" kvs); [|not_caught].
  destruct (object_or_absent "Terminal" (object_at "Departure" kvs));
    [|not_caught].
  destruct (object_or_absent "ScheduledTimeLocal" (object_at "Departure" kvs));
    [|not_caught].
  destruct (object_or_absent "EstimatedTimeLocal" (object_at "Departure" kvs));
    [|not_caught].
  destruct (object_or_absent "ActualTimeLocal" (object_at "Departure" kvs));
    [|not_caught].
  destruct (object_or_absent "Arrival" kvs); [|not_caught].
  destruct (object_or_absent "Terminal" (object_at "Arrival" kvs));
    [|not_caught].
  destruct (object_or_absent "ScheduledTimeLocal" (object_at "Arrival" kvs));
    [|not_caught].
  destruct (object_or_absent "EstimatedTimeLocal" (object_at "Arrival" kvs));
    [|not_caught].
  destruct (object_or_absent "ActualTimeLocal" (object_at "Arrival" kvs));
    [|not_caught].
  destruct (object_or_absent "Equipment" kvs); [|not_caught].
  cbn. discriminate.
Qed.

(** X11. The [except] clause of [_parse_flight_status] fires for one cause
    only: whenever the parser returns a dict with a [raw] item, the payload
    has a [Flight] field whose first flight (the field itself, or the first
    element of a list) is an object, the status [Code] of that flight (its
    [FlightStatus.Code]) is a list or an object, and the result is
    [{"error": "Failed to parse flight status: unhashable type: '<the type
    of that code>'", "raw": <payload>}]. *)
Theorem X11_raw_means_unhashable_code (payload : value)
    (items : list (string * value)) :
  _parse_flight_status payload = Ok (PyDict items) ->
  dict_get "raw" items <> None ->
  exists flights flight,
    Flight_field payload = Found flights
    /\ first_flight flights = Some (PyDict flight)
    /\ unhashable (status_code_of flight) = true
    /\ PyDict items
       = parse_failure (unhashable_error (status_code_of flight)) payload.
Proof.
  unfold _parse_flight_status, Pure.try_except. intros Hparse Hraw.
  pose proof (flights_of_raises payload) as Hflights.
  destruct (flights_of payload) as [flights|e0] eqn:Hf.
  - rewrite (_parse_flight_status_try_first _ _ Hf) in Hparse.
    destruct (first_flight flights) as [flight|] eqn:Hfirst.
    + pose proof (flight_status_record_outcome flight) as Hout.
      destruct (flight_status_record flight) as [v|e] eqn:Hrecord.
      * destruct Hout as (kvs & _ & _ & _ & ->).
        injection Hparse as <-. now contradiction Hraw.
      * destruct (is_KeyError_or_TypeError e) eqn:Hcaught; [|discriminate].
        destruct (flight_status_record_caught _ _ Hrecord Hcaught)
          as (kvs & -> & Hcode & ->).
        injection Hparse as <-. exists flights, kvs.
        split; [exact (flights_of_first _ _ _ Hf Hfirst)|]. auto.
    + injection Hparse as <-. now contradiction Hraw.
  - unfold _parse_flight_status_try in Hparse. rewrite Hf in Hparse.
    cbn in Hflights, Hparse. destruct e0; discriminate.
Qed.

(* ================================================================= *)
(** ** The flight tools *)

Lemma _parse_flight_status_returns_dict (payload v : value) :
  _parse_flight_status payload = Ok v -> exists items, v = PyDict items.
Proof.
  unfold _parse_flight_status, Pure.try_except. intros Hparse.
  destruct (_parse_flight_status_try payload) as [x|e] eqn:Htry.
  - injection Hparse as <-.
    destruct (flights_of payload) as [flights|e0] eqn:Hf.
    + rewrite (_parse_flight_status_try_first _ _ Hf) in Htry.
      destruct (first_flight flights) as [flight|].
      * pose proof (flight_status_record_outcome flight) as Hout.
        rewrite Htry in Hout. destruct Hout as (kvs & _ & _ & _ & ->).
        unfold status_record. eauto.
      * injection Htry as <-. eauto.
    + unfold _parse_flight_status_try in Htry. rewrite Hf in Htry. discriminate.
  - destruct (is_KeyError_or_TypeError e); [|discriminate].
    injection Hparse as <-. eauto.
Qed.

Lemma get_flight_status_returns_dict (w : env) (st : state)
    flight_number date (v : value) :
  fst (get_flight_status flight_number date w st) = Ok v ->
  exists items, v = PyDict items.
Proof.
  unfold get_flight_status, try_except, bind, lift, on_404, ret, raise.
  destruct (_make_request _ _ _ w st) as [[payload|e] st1]; cbn.
  - destruct (_parse_flight_status payload) as [x|e] eqn:Hparse; cbn.
    + intros [= <-]. eapply _parse_flight_status_returns_dict; eauto.
    + pose proof (_parse_flight_status_raises payload) as Hr.
      rewrite Hparse in Hr. destruct e; cbn in *; discriminate.
  - destruct e; cbn; try discriminate.
    destruct (status_code response =? 404); cbn; [|discriminate].
    intros [= <-]. eauto.
Qed.

Lemma dict_get_set_same (key : string) (v : value) (kvs : list (string * value)) :
  dict_get key (dict_set key v kvs) = Some v.
Proof.
  induction kvs as [|[k x] rest IH]; cbn.
  - now rewrite String.eqb_refl.
  - destruct (String.eqb key k) eqn:Hk; cbn.
    + now rewrite String.eqb_refl.
    + now rewrite Hk.
Qed.

Lemma dict_get_set_other (key k' : string) (v : value)
    (kvs : list (string * value)) :
  k' <> key -> dict_get k' (dict_set key v kvs) = dict_get k' kvs.
Proof.
  intros Hne. induction kvs as [|[k x] rest IH]; cbn.
  - now rewrite (proj2 (String.eqb_neq k' key) Hne).
  - destruct (String.eqb key k) eqn:Hk; cbn.
    + apply String.eqb_eq in Hk as <-.
      now rewrite (proj2 (String.eqb_neq k' key) Hne).
    + destruct (String.eqb k' k); [reflexivity|exact IH].
Qed.

Lemma check_flight_status_guard (w : env) (st : state)
    (flight_number date booking_id : option string)
    (tool_context : option tool_state) (today : string) :
  str_truthy flight_number = false ->
  exists message,
    check_flight_status flight_number date booking_id tool_context today w st
    = (Ok (message, tool_context), st)
    /\ message
       = if str_truthy booking_id
         then PyDict
                [("error",
                  PyStr "Booking ID lookup requires Lufthansa Partner API access. Please provide the flight number directly.");
                 ("hint",
                  PyStr "You can find your flight number on your booking confirmation email.")]
         else PyDict [("error",
                       PyStr "Please provide a flight_number (e.g., 'LH456')")].
Proof.
  intros Hfn. unfold check_flight_status. rewrite Hfn. cbn [negb andb].
  rewrite andb_true_r.
  destruct (str_truthy booking_id); eexists; split; reflexivity.
Qed.

(** X12. Without a flight number ([None] or the empty string)
    [check_flight_status] answers at once: with the Partner-API message when
    a booking id was given, with "Please provide a flight_number" otherwise;
    no request is sent and neither the client (its token cache, its log of
    requests, its readings of [time.time()]) nor the tool context changes.
    (When no date was given, [datetime.now()] has been asked for today's
    date before the guards; the answer is not used.) *)
Theorem X12_no_flight_number (w : env) (st : state)
    (flight_number date booking_id : option string)
    (tool_context : option tool_state) (today : string) :
  str_truthy flight_number = false ->
  let run := check_flight_status flight_number date booking_id tool_context
               today w st in
  snd run = st
  /\ fst run
     = Ok (if str_truthy booking_id
           then PyDict
                  [("error",
                    PyStr "Booking ID lookup requires Lufthansa Partner API access. Please provide the flight number directly.");
                   ("hint",
                    PyStr "You can find your flight number on your booking confirmation email.")]
           else PyDict [("error",
                         PyStr "Please provide a flight_number (e.g., 'LH456')")],
           tool_context).
Proof.
  intros Hfn run. subst run.
  destruct (check_flight_status_guard w st flight_number date booking_id
              tool_context today Hfn) as (message & -> & ->).
  split; reflexivity.
Qed.

(** X13. Called with arguments of the annotated types (a str, or [None]
    where the parameter is optional; an int [limit]), the four tools that
    call the client never raise: whatever the provider and the clock do,
    [check_flight_status], [get_flight_details], [get_airport_departures]
    and [get_airport_arrivals] return a value. (An argument that is not a str
    fails in [.upper()], before the [try].) *)
Theorem X13_tools_never_raise (w : env) (st : state) :
  (forall flight_number date booking_id tool_context today,
     exists out,
       fst (check_flight_status flight_number date booking_id tool_context
              today w st) = Ok out)
  /\ (forall flight_number date today,
        exists v, fst (get_flight_details flight_number date today w st) = Ok v)
  /\ (forall airport from_time limit now,
        exists v,
          fst (get_airport_departures airport from_time limit now w st) = Ok v)
  /\ (forall airport from_time limit now,
        exists v,
          fst (get_airport_arrivals airport from_time limit now w st) = Ok v).
Proof.
  repeat split.
  - intros flight_number date booking_id tool_context today.
    unfold check_flight_status.
    destruct (str_truthy booking_id && negb (str_truthy flight_number));
      [eexists; reflexivity|].
    destruct (negb (str_truthy flight_number)); [eexists; reflexivity|].
    unfold try_except, bind, lift, ret.
    set (run := get_flight_status _ _ w st).
    pose proof (get_flight_status_returns_dict w st
                  (normalize_flight_number (str_of flight_number))
                  (if negb (str_truthy date) then today else str_of date))
      as Hdict.
    fold run in Hdict. destruct run as [[result|e] st1]; cbn in *.
    + destruct (Hdict result eq_refl) as [items ->].
      destruct tool_context as [state|]; cbn; [|eexists; reflexivity].
      destruct (dict_get "error" items); cbn; eexists; reflexivity.
    + eexists; reflexivity.
  - intros flight_number date today. unfold get_flight_details, try_except, ret.
    destruct (get_flight_status _ _ w st) as [[v|e] st1]; cbn; eauto.
  - intros airport from_time limit now.
    unfold get_airport_departures, try_except, ret.
    destruct (get_departures _ _ _ w st) as [[v|e] st1]; cbn; eauto.
  - intros airport from_time limit now.
    unfold get_airport_arrivals, try_except, ret.
    destruct (get_arrivals _ _ _ w st) as [[v|e] st1]; cbn; eauto.
Qed.

(** [check_flight_status] on each outcome of the client. *)
Lemma check_flight_status_outcome (w : env) (st : state)
    (flight_number : string) (date booking_id : option string)
    (tool_context : option tool_state) (today : string) :
  String.eqb flight_number "" = false ->
  let asked := normalize_flight_number flight_number in
  let day := date_or_today date today in
  let out := fst (check_flight_status (Some flight_number) date booking_id
                    tool_context today w st) in
  (forall result,
     fst (get_flight_status asked day w st) = Ok result ->
     exists items,
       result = PyDict items
       /\ out = Ok (result, context_after tool_context items asked day))
  /\ (forall e,
        fst (get_flight_status asked day w st) = Raise e ->
        out = Ok (PyDict [("error",
                           PyStr ("Failed to fetch flight status: " ++ exn_str e))],
                  tool_context)).
Proof.
  intros Hfn asked day out. subst out asked day.
  unfold check_flight_status, date_or_today. cbn [str_truthy str_of].
  rewrite Hfn. cbn [negb andb]. rewrite andb_false_r.
  unfold try_except, bind, lift, ret.
  set (run := get_flight_status _ _ w st).
  pose proof (get_flight_status_returns_dict w st
                (normalize_flight_number flight_number)
                (if negb (str_truthy date) then today else str_of date))
    as Hdict.
  fold run in Hdict. destruct run as [[result|e] st1]; cbn in *; split.
  - intros _ [= <-]. destruct (Hdict result eq_refl) as [items ->].
    exists items. split; [reflexivity|].
    unfold context_after. destruct tool_context as [state|]; cbn; [|reflexivity].
    now destruct (dict_get "error" items).
  - discriminate.
  - discriminate.
  - now intros _ [= <-].
Qed.

(** X14. When [check_flight_status] is given a flight number and a context,
    and the client returns a result without an [error] item, the result is
    returned and recorded: afterwards the context holds the result under
    [current_flight], the normalized flight number under [flight_number] and
    the date asked for (today's when none was given) under [flight_date];
    every other item of the context is as before. *)
Theorem X14_result_is_recorded (w : env) (st : state)
    (flight_number : string) (date booking_id : option string)
    (state0 : tool_state) (today : string) (items : list (string * value)) :
  String.eqb flight_number "" = false ->
  let asked := normalize_flight_number flight_number in
  let day := date_or_today date today in
  fst (get_flight_status asked day w st) = Ok (PyDict items) ->
  dict_get "error" items = None ->
  exists state1,
    fst (check_flight_status (Some flight_number) date booking_id
           (Some state0) today w st)
    = Ok (PyDict items, Some state1)
    /\ dict_get "current_flight" state1 = Some (PyDict items)
    /\ dict_get "flight_number" state1 = Some (PyStr asked)
    /\ dict_get "flight_date" state1 = Some (PyStr day)
    /\ forall key,
         key <> "current_flight" -> key <> "flight_number" ->
         key <> "flight_date" ->
         dict_get key state1 = dict_get key state0.
Proof.
  intros Hfn asked day Hrun Herr.
  destruct (check_flight_status_outcome w st flight_number date booking_id
              (Some state0) today Hfn) as [Hok _].
  destruct (Hok _ Hrun) as (items' & [= <-] & Hout).
  unfold context_after in Hout. rewrite Herr in Hout.
  eexists. split; [exact Hout|]. fold asked day.
  split; [|split; [|split]].
  - rewrite !dict_get_set_other by discriminate. apply dict_get_set_same.
  - rewrite dict_get_set_other by discriminate. apply dict_get_set_same.
  - apply dict_get_set_same.
  - intros key H1 H2 H3. now rewrite !dict_get_set_other.
Qed.

(** X15. [check_flight_status] never records a failure: whenever the dict it
    returns has an [error] item (a guard message, the client's not-found or
    parse-failure result, or a caught exception), the tool context is the
    one it was given. *)
Theorem X15_failure_is_not_recorded (w : env) (st : state)
    (flight_number date booking_id : option string)
    (tool_context context' : option tool_state) (today : string)
    (items : list (string * value)) :
  fst (check_flight_status flight_number date booking_id tool_context today w st)
  = Ok (PyDict items, context') ->
  dict_get "error" items <> None ->
  context' = tool_context.
Proof.
  intros Hout Herr.
  destruct (str_truthy flight_number) eqn:Hfn.
  - destruct flight_number as [fn|]; [|discriminate]. cbn in Hfn.
    apply negb_true_iff in Hfn.
    destruct (check_flight_status_outcome w st fn date booking_id
                tool_context today Hfn) as [Hok Hraise].
    destruct (fst (get_flight_status (normalize_flight_number fn)
                     (date_or_today date today) w st)) as [result|e] eqn:Hrun.
    + destruct (Hok _ eq_refl) as (items' & -> & Hres).
      rewrite Hres in Hout. injection Hout as <- <-.
      unfold context_after. destruct tool_context as [state|]; [|reflexivity].
      destruct (dict_get "error" items'); [reflexivity|now contradiction Herr].
    + rewrite (Hraise _ eq_refl) in Hout. now injection Hout as _ <-.
  - destruct (check_flight_status_guard w st flight_number date booking_id tool_context today Hfn)
      as (message & Hrun & _).
    rewrite Hrun in Hout. now injection Hout as _ <-.
Qed.

(** X16. When the provider answers the data request of
    [get_airport_arrivals] or [get_airport_departures] with an error status
    (400-599, a 404 included), the tool returns
    [{"error": "Failed to get arrivals: <status line>"}] (respectively
    "departures"): the [HTTPError] of the client becomes an error item. The
    airport code is upper-cased and stripped, and the time defaults to now. *)
Theorem X16_airport_tools_on_error_status (w : env) (st : state)
    (airport : string) (from_time : option string) (limit : Z) (now : string)
    (resp : http_response) (msg : string) :
  http_error_msg resp = Some msg ->
  let code := str_strip (str_upper airport) in
  let time := date_or_today from_time now in
  (answers w st "GET" (arrivals_endpoint code time) (limit_params limit) resp ->
   fst (get_airport_arrivals airport from_time limit now w st)
   = Ok (PyDict [("error", PyStr ("Failed to get arrivals: " ++ msg))]))
  /\ (answers w st "GET" (departures_endpoint code time) (limit_params limit)
        resp ->
      fst (get_airport_departures airport from_time limit now w st)
      = Ok (PyDict [("error", PyStr ("Failed to get departures: " ++ msg))])).
Proof.
  intros Hmsg code time. subst code time. unfold date_or_today. split; intros Hans.
  - pose proof (get_arrivals_answer _ _ _ _ _ _ Hans) as Hrun.
    unfold outcome_with in Hrun. rewrite Hmsg in Hrun.
    unfold get_airport_arrivals, try_except, ret.
    destruct (get_arrivals _ _ _ w st) as [r st1]. cbn in Hrun. now subst r.
  - pose proof (get_departures_answer _ _ _ _ _ _ Hans) as Hrun.
    unfold outcome_with in Hrun. rewrite Hmsg in Hrun.
    unfold get_airport_departures, try_except, ret.
    destruct (get_departures _ _ _ w st) as [r st1]. cbn in Hrun. now subst r.
Qed.

(** X17. When the provider answers with a 404, [check_flight_status] and
    [get_flight_details] return the client's not-found result for the flight
    number as normalized and the date asked for,
    [{"error": "Flight <number> not found for <date>"}], and
    [check_flight_status] leaves the context as it was. *)
Theorem X17_flight_tools_on_404 (w : env) (st : state)
    (flight_number : string) (date booking_id : option string)
    (tool_context : option tool_state) (today : string)
    (resp : http_response) :
  String.eqb flight_number "" = false ->
  let asked := normalize_flight_number flight_number in
  let day := date_or_today date today in
  answers w st "GET" (flight_status_endpoint asked day) None resp ->
  status_code resp = 404 ->
  let not_found :=
    PyDict [("error", PyStr ("Flight " ++ asked ++ " not found for " ++ day))] in
  fst (check_flight_status (Some flight_number) date booking_id tool_context
         today w st)
  = Ok (not_found, tool_context)
  /\ fst (get_flight_details flight_number date today w st) = Ok not_found.
Proof.
  intros Hfn asked day Hans H404 not_found.
  assert (fst (get_flight_status asked day w st) = Ok not_found) as Hrun.
  { erewrite get_flight_status_answer by eassumption.
    destruct (http_error_msg_some resp) as [msg Hmsg]; [lia|].
    unfold outcome_with. now rewrite Hmsg, H404. }
  split.
  - destruct (check_flight_status_outcome w st flight_number date booking_id
                tool_context today Hfn) as [Hok _].
    destruct (Hok _ Hrun) as (items & Hitems & ->).
    subst not_found. injection Hitems as <-.
    unfold context_after. cbn. now destruct tool_context.
  - unfold get_flight_details, try_except, ret. fold (date_or_today date today).
    fold asked day.
    destruct (get_flight_status asked day w st) as [r st1]. cbn in Hrun.
    now subst r.
Qed.

(** X18. A payload the parser chokes on does not take the tool down: when a
    payload is successfully received and [_parse_flight_status] raises on it
    (the [AttributeError] of a field that is not an object where one is
    expected), [check_flight_status] returns
    [{"error": "Failed to fetch flight status: <e>"}] and leaves the context
    as it was, and [get_flight_details] returns
    [{"error": "Failed to get flight details: <e>"}]. *)
Theorem X18_flight_tools_on_parse_failure (w : env) (st : state)
    (flight_number : string) (date booking_id : option string)
    (tool_context : option tool_state) (today : string)
    (payload : value) (e : exn) :
  String.eqb flight_number "" = false ->
  let asked := normalize_flight_number flight_number in
  let day := date_or_today date today in
  delivers w st (flight_status_endpoint asked day) payload ->
  _parse_flight_status payload = Raise e ->
  fst (check_flight_status (Some flight_number) date booking_id tool_context
         today w st)
  = Ok (PyDict [("error", PyStr ("Failed to fetch flight status: " ++ exn_str e))],
        tool_context)
  /\ fst (get_flight_details flight_number date today w st)
     = Ok (PyDict [("error", PyStr ("Failed to get flight details: " ++ exn_str e))]).
Proof.
  intros Hfn asked day Hd Hparse.
  assert (fst (get_flight_status asked day w st) = Raise e) as Hrun
    by (now rewrite (get_flight_status_payload _ _ _ _ _ Hd)).
  split.
  - destruct (check_flight_status_outcome w st flight_number date booking_id
                tool_context today Hfn) as [_ Hraise].
    now apply Hraise.
  - unfold get_flight_details, try_except, ret. fold (date_or_today date today).
    fold asked day.
    destruct (get_flight_status asked day w st) as [r st1]. cbn in Hrun.
    now subst r.
Qed.

(* ================================================================= *)
(** ** Configuration *)

Lemma get_env_var_optional (env : environ) name default :
  get_env_var env name default false = Loaded (os_getenv env name default).
Proof. reflexivity. Qed.

Lemma get_env_var_required (env : environ) name :
  get_env_var env name None true
  = if is_set env name then Loaded (env name)
    else ValueError ("Required environment variable " ++ name ++ " is not set").
Proof.
  unfold get_env_var, os_getenv, is_set. cbn [andb].
  destruct (env name) as [v|]; [|reflexivity]. cbn.
  now destruct (String.eqb v "").
Qed.

(** X19. [get_env_var] with [required=True] returns a non-empty str, taken
    from the environment or, when the variable is unset, from the default;
    otherwise it raises [ValueError]. A variable set to the empty string
    hides the default: it is rejected when required, and returned as it is
    when not. *)
Theorem X19_required_variable (env : environ) (name : string)
    (default : option string) :
  (forall v, get_env_var env name default true = Loaded v ->
             exists s, v = Some s /\ s <> ""
                       /\ (env name = Some s
                           \/ (env name = None /\ default = Some s)))
  /\ (env name = Some "" ->
      get_env_var env name default true
      = ValueError ("Required environment variable " ++ name ++ " is not set")
      /\ get_env_var env name default false = Loaded (Some "")).
Proof.
  unfold get_env_var, os_getenv. cbn [andb]. split.
  - intros v. destruct (env name) as [s|] eqn:Hname.
    + cbn. destruct (String.eqb_spec s ""); cbn; [discriminate|].
      intros [= <-]. exists s. auto.
    + destruct default as [s|]; cbn; [|discriminate].
      destruct (String.eqb_spec s ""); cbn; [discriminate|].
      intros [= <-]. exists s. auto.
  - intros ->. split; reflexivity.
Qed.

(** X20. Importing [config.py] succeeds exactly when [LUFTHANSA_CLIENT_ID]
    and [LUFTHANSA_CLIENT_SECRET] are set to non-empty values and so is the
    Google variable of the mode ([GOOGLE_CLOUD_PROJECT] when
    [GOOGLE_GENAI_USE_VERTEXAI] is "1", [GOOGLE_API_KEY] otherwise);
    otherwise it raises [ValueError]. After a successful import the client
    credentials are the non-empty values of the environment, and in Vertex
    mode [GOOGLE_API_KEY] is [None]. *)
Theorem X20_config_import (env : environ) :
  ((exists cfg, load_config env = Loaded cfg)
   <-> required_variables_set env = true)
  /\ (forall cfg, load_config env = Loaded cfg ->
        USE_VERTEX_AI cfg = vertex_mode env
        /\ LUFTHANSA_CLIENT_ID cfg = env "LUFTHANSA_CLIENT_ID"
        /\ str_truthy (LUFTHANSA_CLIENT_ID cfg) = true
        /\ LUFTHANSA_CLIENT_SECRET cfg = env "LUFTHANSA_CLIENT_SECRET"
        /\ str_truthy (LUFTHANSA_CLIENT_SECRET cfg) = true
        /\ (USE_VERTEX_AI cfg = true -> GOOGLE_API_KEY cfg = None)).
Proof.
  unfold load_config, required_variables_set.
  rewrite !get_env_var_optional, !get_env_var_required.
  cbn [and_then].
  assert (match os_getenv env "GOOGLE_GENAI_USE_VERTEXAI" (Some "0") with
          | Some v => String.eqb v "1"
          | None => false
          end = vertex_mode env) as Hflag.
  { unfold vertex_mode, os_getenv.
    now destruct (env "GOOGLE_GENAI_USE_VERTEXAI"). }
  rewrite !Hflag. clear Hflag.
  destruct (vertex_mode env); cbv iota;
    [destruct (is_set env "GOOGLE_CLOUD_PROJECT") eqn:Hgoogle
    |destruct (is_set env "GOOGLE_API_KEY") eqn:Hgoogle];
    cbn [and_then andb];
    try (split; [split; [intros [cfg H]; discriminate H|discriminate]
                |intros cfg H; discriminate H]);
    destruct (is_set env "LUFTHANSA_CLIENT_ID") eqn:Hid; cbn [and_then andb];
    try (split; [split; [intros [cfg H]; discriminate H|discriminate]
                |intros cfg H; discriminate H]);
    destruct (is_set env "LUFTHANSA_CLIENT_SECRET") eqn:Hsecret;
    cbn [and_then andb];
    try (split; [split; [intros [cfg H]; discriminate H|discriminate]
                |intros cfg H; discriminate H]);
    (split; [split; [reflexivity|eauto]|]);
    intros cfg [= <-]; cbn; repeat split; auto; discriminate.
Qed.

(* ================================================================= *)
(** ** Series of calls *)

Lemma call_with_fresh_token (op : operation) (w : env) (st : state) :
  token_fresh w st = true ->
  snd (call op w st)
  = pushed {| self := self st; clock_reads := S (clock_reads st);
              sent := sent st |}
      (data_request (self st) "GET" (endpoint_of op) (params_of op)
         (_access_token (self st))).
Proof.
  intros Hf. rewrite call_state.
  now rewrite (_make_request_with_token _ _ _ _ "GET" (endpoint_of op)
                 (params_of op) (_get_access_token_fresh _ _ Hf)).
Qed.

(** X21. While the token lasts, no call authenticates: when a token is held
    and each of the next [n] clock readings is more than 60 seconds before
    its expiry, [n] operations called one after the other send exactly their
    [n] data requests, in order and all with the cached token; no auth POST
    is sent and the client's attributes stay as they were. *)
Theorem X21_no_refresh_while_fresh (ops : list operation) (w : env) (st : state) :
  truthy (_access_token (self st)) = true ->
  (forall n, (clock_reads st <= n < clock_reads st + List.length ops)%nat ->
             time_time w n < _token_expires_at (self st) - 60) ->
  let c := self st in
  sent (calls ops w st)
  = (sent st
     ++ map (fun op => data_request c "GET" (endpoint_of op) (params_of op)
                         (_access_token c)) ops)%list
  /\ self (calls ops w st) = c
  /\ clock_reads (calls ops w st) = (clock_reads st + List.length ops)%nat.
Proof.
  revert st. induction ops as [|op rest IH]; intros st Htok Hclock c; subst c.
  - cbn. rewrite app_nil_r. auto with arith.
  - assert (token_fresh w st = true) as Hf.
    { apply token_fresh_true. split; [exact Htok|]. apply Hclock. cbn. lia. }
    cbn [calls]. rewrite (call_with_fresh_token op w st Hf).
    set (st1 := pushed _ _).
    destruct (IH st1) as (Hsent & Hself & Hreads).
    + exact Htok.
    + intros n Hn. apply Hclock. subst st1. cbn in *. lia.
    + subst st1. cbn in *. rewrite Hsent, Hself, Hreads, <- app_assoc.
      repeat split. lia.
Qed.

(** X22. [get_flight_status_by_route] on a successfully received payload in
    which [FlightStatusResource.Flights.Flight] is absent (a key on the path
    is missing) or holds a false value that is not a list (null, an empty
    object, ...) or the empty list: the result is
    [{"flights": [], "count": 0}], not an error. *)
Theorem X22_route_without_flights (w : env) (st : state)
    origin destination date (payload : value) :
  delivers w st (route_endpoint origin destination date) payload ->
  Flight_field payload = Missing
  \/ (exists f, Flight_field payload = Found f /\ truthy f = false) ->
  fst (get_flight_status_by_route origin destination date w st)
  = Ok (PyDict [("flights", PyList []); ("count", PyInt 0)]).
Proof.
  intros Hd Hfield.
  rewrite (get_flight_status_by_route_payload _ _ _ _ _ _ Hd).
  unfold _parse_route_flights, _parse_route_flights_try.
  destruct Hfield as [Hmissing | (f & Hfound & Hfalse)].
  - now rewrite (flights_of_missing _ Hmissing).
  - rewrite (flights_of_found _ _ Hfound). cbn [Pure.bind].
    destruct f as [| | | |l|]; cbn in Hfalse |- *; try rewrite Hfalse;
      try reflexivity.
    destruct l; [reflexivity|discriminate].
Qed.

End Client.

(* ================================================================= *)
(** ** The properties at the sample data *)

Ltac world_answers := eexists _, _; split; reflexivity.
Ltac world_delivers := eexists; split; [world_answers|split; reflexivity].

Lemma C4_witness :
  truthy (_access_token (self holding_state)) = true
  /\ time_time (world not_found_reply) (clock_reads holding_state)
     < _token_expires_at (self holding_state) - 60
  /\ fst (_get_access_token repr_plain (world not_found_reply) holding_state)
     = Ok (PyStr "abc")
  /\ sent (snd (_make_request repr_plain "GET" "/references/airports/FRA" None
                  (world not_found_reply) holding_state))
     = [data_request repr_plain sample_client "GET" "/references/airports/FRA"
          None (PyStr "abc")]
  /\ self (snd (_make_request repr_plain "GET" "/references/airports/FRA" None
                  (world not_found_reply) holding_state))
     = self holding_state.
Proof.
  split; [reflexivity|]. split; [reflexivity|].
  apply (C4_fresh_token_is_reused repr_plain (world not_found_reply)
           holding_state "GET" "/references/airports/FRA" None);
    reflexivity.
Defined.

Lemma C5_witness :
  (truthy (_access_token (self new_state)) = false
   \/ _token_expires_at (self new_state) - 60
      <= time_time (world not_found_reply) (clock_reads new_state))
  /\ let st' := snd (_make_request repr_plain "GET" "/references/airports/FRA"
                       None (world not_found_reply) new_state) in
     (exists tok lifetime,
        granted (world not_found_reply) new_state tok lifetime
        /\ sent st'
           = (sent new_state
              ++ [auth_request (self new_state);
                  data_request repr_plain (self new_state) "GET"
                    "/references/airports/FRA" None tok])%list
        /\ _access_token (self st') = tok
        /\ _token_expires_at (self st')
           = time_time (world not_found_reply)
               (clock_reads (after_check new_state)) + lifetime)
     \/ ((forall tok lifetime,
            ~ granted (world not_found_reply) new_state tok lifetime)
         /\ sent st' = (sent new_state ++ [auth_request (self new_state)])%list
         /\ exists e,
              fst (_make_request repr_plain "GET" "/references/airports/FRA"
                     None (world not_found_reply) new_state) = Raise e).
Proof.
  split; [left; reflexivity|].
  apply (C5_stale_token_is_refreshed_once repr_plain (world not_found_reply)
           new_state "GET" "/references/airports/FRA" None).
  left; reflexivity.
Defined.

Lemma C9_witness :
  token_fresh (world not_found_reply) new_state = false
  /\ http (world not_found_reply) (sent (after_check new_state))
       (auth_request (self (after_check new_state))) = Reply grant_reply
  /\ dict_get "expires_in"
       [("access_token", PyStr "abc"); ("token_type", PyStr "bearer")] = None
  /\ _token_expires_at
       (self (snd (_get_access_token repr_plain (world not_found_reply) new_state)))
     = 1000 + 36000.
Proof.
  split; [reflexivity|]. split; [reflexivity|]. split; [reflexivity|].
  apply (C9_default_lifetime repr_plain (world not_found_reply) new_state
           grant_reply
           [("access_token", PyStr "abc"); ("token_type", PyStr "bearer")]
           (PyStr "abc"));
    reflexivity.
Defined.

Lemma C6_witness :
  status_code not_found_reply = 404
  /\ answers repr_plain (world not_found_reply) new_state "GET"
       (flight_status_endpoint "LH456" "2026-02-28") None not_found_reply
  /\ answers repr_plain (world not_found_reply) new_state "GET"
       (route_endpoint "HAM" "JFK" "2026-02-28") None not_found_reply
  /\ fst (get_flight_status repr_plain "LH456" "2026-02-28"
            (world not_found_reply) new_state)
     = Ok (PyDict [("error", PyStr "Flight LH456 not found for 2026-02-28")])
  /\ fst (get_flight_status_by_route repr_plain "HAM" "JFK" "2026-02-28"
            (world not_found_reply) new_state)
     = Ok (PyDict [("flights", PyList []);
                   ("message", PyStr "No flights found HAM→JFK on 2026-02-28")]).
Proof.
  split; [reflexivity|]. split; [world_answers|]. split; [world_answers|].
  destruct (C6_not_found_results repr_plain (world not_found_reply) new_state
              not_found_reply eq_refl) as [Hstatus Hroute].
  split.
  - apply (Hstatus "LH456" "2026-02-28"). world_answers.
  - apply (Hroute "HAM" "JFK" "2026-02-28"). world_answers.
Defined.

Lemma C2_witness :
  400 <= status_code not_found_reply < 600
  /\ 400 <= status_code server_error_reply < 600
  /\ fst (get_schedules repr_plain "HAM" "JFK" "2026-02-28" true
            (world not_found_reply) new_state)
     = Ok (PyDict [("schedules", PyList []);
                   ("message", PyStr "No schedules found")])
  /\ (exists msg,
        fst (get_flight_status repr_plain "LH456" "2026-02-28"
               (world server_error_reply) new_state)
        = Raise (HTTPError msg server_error_reply))
  /\ (exists msg,
        fst (get_arrivals repr_plain "FRA" "2026-02-28T10:00" 20
               (world not_found_reply) new_state)
        = Raise (HTTPError msg not_found_reply)).
Proof.
  assert (400 <= status_code not_found_reply < 600) as H404 by (cbn; lia).
  assert (400 <= status_code server_error_reply < 600) as H500 by (cbn; lia).
  split; [exact H404|]. split; [exact H500|].
  destruct (C2_error_statuses repr_plain (world not_found_reply) new_state
              not_found_reply H404) as (_ & _ & Hschedules & Harrivals & _).
  destruct (C2_error_statuses repr_plain (world server_error_reply) new_state
              server_error_reply H500) as (Hstatus & _).
  split; [|split].
  - apply (Hschedules "HAM" "JFK" "2026-02-28" true); [world_answers|reflexivity].
  - apply (Hstatus "LH456" "2026-02-28"); [world_answers|cbn; lia].
  - apply (Harrivals "FRA" "2026-02-28T10:00" 20). world_answers.
Defined.

Lemma C10_witness :
  answers repr_plain (world (json_reply 200 "OK" (flights_payload (PyList []))))
    new_state "GET" (flight_status_endpoint "LH456" "2026-02-28") None
    (json_reply 200 "OK" (flights_payload (PyList [])))
  /\ 200 <= status_code (json_reply 200 "OK" (flights_payload (PyList []))) < 300
  /\ (Flight_field (flights_payload (PyList [])) = Missing
      \/ exists f, Flight_field (flights_payload (PyList [])) = Found f
                   /\ truthy f = false)
  /\ fst (get_flight_status repr_plain "LH456" "2026-02-28"
            (world (json_reply 200 "OK" (flights_payload (PyList []))))
            new_state)
     = Ok (PyDict [("error", PyStr "No flight data in response")]).
Proof.
  assert (Flight_field (flights_payload (PyList [])) = Missing
          \/ exists f, Flight_field (flights_payload (PyList [])) = Found f
                       /\ truthy f = false) as Hfield
    by (right; exists (PyList []); split; reflexivity).
  split; [world_answers|]. split; [cbn; lia|]. split; [exact Hfield|].
  apply (C10_no_flight_data repr_plain
           (world (json_reply 200 "OK" (flights_payload (PyList []))))
           new_state "LH456" "2026-02-28"
           (json_reply 200 "OK" (flights_payload (PyList [])))
           (flights_payload (PyList [])));
    [world_answers|cbn; lia|reflexivity|exact Hfield].
Defined.

Lemma C7_witness :
  sample_flight <> []
  /\ Flight_field (flights_payload (PyDict sample_flight))
     = Found (PyDict sample_flight)
  /\ Flight_field (flights_payload (PyList [PyDict sample_flight]))
     = Found (PyList [PyDict sample_flight])
  /\ same_up_to_raw
       (flights_payload (PyDict sample_flight))
       (flights_payload (PyList [PyDict sample_flight]))
       (_parse_flight_status repr_plain (flights_payload (PyDict sample_flight)))
       (_parse_flight_status repr_plain
          (flights_payload (PyList [PyDict sample_flight])))
  /\ _parse_route_flights repr_plain (flights_payload (PyDict sample_flight))
     = _parse_route_flights repr_plain
         (flights_payload (PyList [PyDict sample_flight]))
  /\ fst (get_flight_status_by_route repr_plain "HAM" "JFK" "2026-02-28"
            (world (json_reply 200 "OK" (flights_payload (PyDict sample_flight))))
            new_state)
     = fst (get_flight_status_by_route repr_plain "HAM" "JFK" "2026-02-28"
              (world (json_reply 200 "OK"
                        (flights_payload (PyList [PyDict sample_flight]))))
              new_state).
Proof.
  assert (sample_flight <> []) as Hne by discriminate.
  split; [exact Hne|]. split; [reflexivity|]. split; [reflexivity|].
  destruct (C7_single_flight_as_list repr_plain sample_flight
              (flights_payload (PyDict sample_flight))
              (flights_payload (PyList [PyDict sample_flight]))
              Hne eq_refl eq_refl)
    as (Hstatus & Hroute & _ & Hop).
  split; [exact Hstatus|]. split; [exact Hroute|].
  apply Hop; world_delivers.
Defined.

(* ================================================================= *)
(** ** Where the specification and the code part *)

(** C1 fails as stated. The auth endpoint answers the refresh of a new
    client with [{"access_token": null, "expires_in": -5}]: the data request
    goes out with [Authorization: Bearer None], while the client holds no
    token ([None]) and the expiry it stored, 995, is before the clock reading
    1000 at which it was stored. *)
Lemma C1_counterexample :
  sent (snd (call repr_plain (GetAirport "FRA")
               (world_of (Reply null_grant) (Reply not_found_reply)) new_state))
  = [auth_request sample_client;
     data_request repr_plain sample_client "GET" "/references/airports/FRA"
       None PyNone]
  /\ header "Authorization"
       (req_headers (data_request repr_plain sample_client "GET"
                       "/references/airports/FRA" None PyNone))
     = Some "Bearer None"
  /\ _access_token
       (self (snd (call repr_plain (GetAirport "FRA")
                     (world_of (Reply null_grant) (Reply not_found_reply))
                     new_state)))
     = PyNone
  /\ _token_expires_at
       (self (snd (call repr_plain (GetAirport "FRA")
                     (world_of (Reply null_grant) (Reply not_found_reply))
                     new_state)))
     = 995
  /\ time_time (world_of (Reply null_grant) (Reply not_found_reply)) 0 = 1000.
Proof. repeat split. Qed.

(** C2 fails as stated. [get_arrivals] and [get_departures] on a 404 raise
    the [HTTPError] instead of returning a not-found value; and a status that
    is neither 2xx nor an error status (here 300) raises no [HTTPError]: the
    body is decoded and parsed. *)
Lemma C2_counterexample :
  status_code not_found_reply = 404
  /\ answers repr_plain (world not_found_reply) new_state "GET"
       (arrivals_endpoint "FRA" "2026-02-28T10:00") (limit_params 20)
       not_found_reply
  /\ fst (get_arrivals repr_plain "FRA" "2026-02-28T10:00" 20
            (world not_found_reply) new_state)
     = Raise (HTTPError
                "404 Client Error: Not Found for url: https://api.lufthansa.com/v1"
                not_found_reply)
  /\ answers repr_plain (world not_found_reply) new_state "GET"
       (departures_endpoint "HAM" "2026-02-28T10:00") (limit_params 20)
       not_found_reply
  /\ fst (get_departures repr_plain "HAM" "2026-02-28T10:00" 20
            (world not_found_reply) new_state)
     = Raise (HTTPError
                "404 Client Error: Not Found for url: https://api.lufthansa.com/v1"
                not_found_reply)
  /\ answers repr_plain
       (world (json_reply 300 "Multiple Choices" (PyDict []))) new_state "GET"
       (flight_status_endpoint "LH456" "2026-02-28") None
       (json_reply 300 "Multiple Choices" (PyDict []))
  /\ fst (get_flight_status repr_plain "LH456" "2026-02-28"
            (world (json_reply 300 "Multiple Choices" (PyDict []))) new_state)
     = Ok (PyDict [("error", PyStr "No flight data in response")]).
Proof.
  split; [reflexivity|]. split; [world_answers|]. split; [reflexivity|].
  split; [world_answers|]. split; [reflexivity|]. split; [world_answers|].
  reflexivity.
Qed.

(** C3. The code misses what the claim says. Both parsers wrap their [.get]
    chains in [except (KeyError, TypeError)] to turn parse failures into a
    result, but a field that is not an object where one is expected makes
    [.get] raise [AttributeError]: a payload whose scheduled departure time
    is a bare string is received successfully, and the parse of either
    operation raises [AttributeError], which reaches the caller; no
    [{error, raw}] result is returned. *)
Lemma C3_attribute_error_escapes :
  delivers repr_plain
    (world (json_reply 200 "OK" (flights_payload flight_with_bare_time)))
    new_state (flight_status_endpoint "LH456" "2026-02-28")
    (flights_payload flight_with_bare_time)
  /\ fst (get_flight_status repr_plain "LH456" "2026-02-28"
            (world (json_reply 200 "OK" (flights_payload flight_with_bare_time)))
            new_state)
     = Raise (AttributeError "'str' object has no attribute 'get'")
  /\ delivers repr_plain
       (world (json_reply 200 "OK" (flights_payload flight_with_bare_time)))
       new_state (route_endpoint "HAM" "JFK" "2026-02-28")
       (flights_payload flight_with_bare_time)
  /\ fst (get_flight_status_by_route repr_plain "HAM" "JFK" "2026-02-28"
            (world (json_reply 200 "OK" (flights_payload flight_with_bare_time)))
            new_state)
     = Raise (AttributeError "'str' object has no attribute 'get'").
Proof.
  split; [world_delivers|]. split; [reflexivity|].
  split; [world_delivers|]. reflexivity.
Qed.

(** C7 fails as stated, at the empty flight object: as a single object it is
    a false value and counts as no data, while the one-element list holding
    it is parsed as a flight with every field defaulted. *)
Lemma C7_counterexample :
  Flight_field (flights_payload (PyDict [])) = Found (PyDict [])
  /\ Flight_field (flights_payload (PyList [PyDict []]))
     = Found (PyList [PyDict []])
  /\ _parse_flight_status repr_plain (flights_payload (PyDict []))
     = Ok (PyDict [("error", PyStr "No flight data in response")])
  /\ (exists record,
        _parse_flight_status repr_plain (flights_payload (PyList [PyDict []]))
        = Ok (PyDict (("flight", PyStr "") :: record)))
  /\ _parse_route_flights repr_plain (flights_payload (PyDict []))
     = Ok (PyDict [("flights", PyList []); ("count", PyInt 0)])
  /\ (exists flight,
        _parse_route_flights repr_plain (flights_payload (PyList [PyDict []]))
        = Ok (PyDict [("flights", PyList [flight]); ("count", PyInt 1)])).
Proof.
  split; [reflexivity|]. split; [reflexivity|]. split; [reflexivity|].
  split; [eexists; reflexivity|]. split; [reflexivity|].
  eexists; reflexivity.
Qed.

(* ================================================================= *)
(** ** The further properties at the sample data *)

Lemma X1_witness :
  token_fresh (world_of (NoReply "Connection refused") (Reply not_found_reply))
    new_state = false
  /\ http (world_of (NoReply "Connection refused") (Reply not_found_reply))
       (sent new_state) (auth_request (self new_state))
     = NoReply "Connection refused"
  /\ fst (call repr_plain (GetArrivals "FRA" "2026-02-28T10:00" 20)
            (world_of (NoReply "Connection refused") (Reply not_found_reply))
            new_state)
     = Raise (RuntimeError
                "Lufthansa API authentication failed: Connection refused")
  /\ sent (snd (call repr_plain (GetArrivals "FRA" "2026-02-28T10:00" 20)
                  (world_of (NoReply "Connection refused")
                     (Reply not_found_reply))
                  new_state))
     = [auth_request sample_client].
Proof.
  split; [reflexivity|]. split; [reflexivity|].
  destruct (X1_auth_failure repr_plain (GetArrivals "FRA" "2026-02-28T10:00" 20)
              (world_of (NoReply "Connection refused") (Reply not_found_reply))
              new_state "Connection refused" eq_refl (or_introl eq_refl))
    as (Hres & Hsent & _).
  split; [exact Hres|exact Hsent].
Defined.

Lemma X2_witness :
  token_fresh (world_of (Reply grant_without_token) (Reply not_found_reply))
    new_state = false
  /\ dict_get "access_token" [("token_type", PyStr "bearer")] = None
  /\ fst (call repr_plain (GetFlightStatus "LH456" "2026-02-28")
            (world_of (Reply grant_without_token) (Reply not_found_reply))
            new_state)
     = Raise (KeyError "access_token")
  /\ sent (snd (call repr_plain (GetFlightStatus "LH456" "2026-02-28")
                  (world_of (Reply grant_without_token) (Reply not_found_reply))
                  new_state))
     = [auth_request sample_client].
Proof.
  split; [reflexivity|]. split; [reflexivity|].
  destruct (X2_grant_without_token repr_plain
              (GetFlightStatus "LH456" "2026-02-28")
              (world_of (Reply grant_without_token) (Reply not_found_reply))
              new_state grant_without_token [("token_type", PyStr "bearer")]
              eq_refl eq_refl eq_refl eq_refl eq_refl)
    as (Hres & Hsent & _).
  split; [exact Hres|exact Hsent].
Defined.

Lemma X3_witness :
  token_fresh (world_of (Reply grant_with_text_lifetime) (Reply not_found_reply))
    new_state = false
  /\ dict_get "expires_in"
       [("access_token", PyStr "abc"); ("expires_in", PyStr "36000")]
     = Some (PyStr "36000")
  /\ (exists msg,
        fst (call repr_plain (GetAirport "FRA")
               (world_of (Reply grant_with_text_lifetime) (Reply not_found_reply))
               new_state)
        = Raise (TypeError msg))
  /\ _access_token
       (self (snd (call repr_plain (GetAirport "FRA")
                     (world_of (Reply grant_with_text_lifetime)
                        (Reply not_found_reply))
                     new_state)))
     = PyStr "abc"
  /\ _token_expires_at
       (self (snd (call repr_plain (GetAirport "FRA")
                     (world_of (Reply grant_with_text_lifetime)
                        (Reply not_found_reply))
                     new_state)))
     = 0.
Proof.
  split; [reflexivity|]. split; [reflexivity|].
  destruct (X3_grant_with_bad_lifetime repr_plain (GetAirport "FRA")
              (world_of (Reply grant_with_text_lifetime) (Reply not_found_reply))
              new_state grant_with_text_lifetime
              [("access_token", PyStr "abc"); ("expires_in", PyStr "36000")]
              (PyStr "abc") (PyStr "36000")
              eq_refl eq_refl eq_refl eq_refl eq_refl eq_refl)
    as (Hres & _ & Htok & Hexp); try discriminate.
  split; [exact Hres|]. split; [exact Htok|exact Hexp].
Defined.

Lemma X4_witness :
  token_fresh (world not_found_reply) new_state = false
  /\ grants (world not_found_reply) (after_check new_state) (PyStr "abc") 37000
  /\ time_time (world not_found_reply)
       (clock_reads (snd (_make_request repr_plain "GET" "/references/airports/FRA"
                            None (world not_found_reply) new_state)))
     < 37000 - 60
  /\ sent (snd (_make_request repr_plain "GET" "/references/airports/HAM" None
                  (world not_found_reply)
                  (snd (_make_request repr_plain "GET" "/references/airports/FRA"
                          None (world not_found_reply) new_state))))
     = [auth_request sample_client;
        data_request repr_plain sample_client "GET" "/references/airports/FRA"
          None (PyStr "abc");
        data_request repr_plain sample_client "GET" "/references/airports/HAM"
          None (PyStr "abc")].
Proof.
  assert (grants (world not_found_reply) (after_check new_state) (PyStr "abc") 37000)
    as Hg.
  { exists grant_reply,
      [("access_token", PyStr "abc"); ("token_type", PyStr "bearer")],
      (PyInt 36000).
    repeat split; reflexivity. }
  split; [reflexivity|]. split; [exact Hg|]. split; [reflexivity|].
  apply (X4_granted_token_serves_next_request repr_plain (world not_found_reply)
           new_state "GET" "/references/airports/FRA" None
           "GET" "/references/airports/HAM" None (PyStr "abc") 37000);
    [reflexivity|exact Hg|reflexivity|reflexivity].
Defined.

Lemma X5_witness :
  no_answer repr_plain (world_of (Reply grant_reply) (NoReply "Read timed out"))
    new_state "GET"
    (endpoint_of (GetSchedules "HAM" "JFK" "2026-02-28" true))
    (params_of (GetSchedules "HAM" "JFK" "2026-02-28" true))
    "Read timed out"
  /\ fst (call repr_plain (GetSchedules "HAM" "JFK" "2026-02-28" true)
            (world_of (Reply grant_reply) (NoReply "Read timed out")) new_state)
     = Raise (RequestException "Read timed out").
Proof.
  assert (no_answer repr_plain
            (world_of (Reply grant_reply) (NoReply "Read timed out"))
            new_state "GET"
            (endpoint_of (GetSchedules "HAM" "JFK" "2026-02-28" true))
            (params_of (GetSchedules "HAM" "JFK" "2026-02-28" true))
            "Read timed out") as Hno
    by (eexists _, _; split; reflexivity).
  split; [exact Hno|].
  exact (proj1 (X5_transport_failure repr_plain
                  (GetSchedules "HAM" "JFK" "2026-02-28" true)
                  (world_of (Reply grant_reply) (NoReply "Read timed out"))
                  new_state "Read timed out" Hno)).
Defined.

Lemma X6_witness :
  passes_through (GetAirport "FRA") = true
  /\ answers repr_plain
       (world (json_reply 200 "OK" (PyDict [("AirportResource", PyDict [])])))
       new_state "GET" (endpoint_of (GetAirport "FRA"))
       (params_of (GetAirport "FRA"))
       (json_reply 200 "OK" (PyDict [("AirportResource", PyDict [])]))
  /\ fst (call repr_plain (GetAirport "FRA")
            (world (json_reply 200 "OK" (PyDict [("AirportResource", PyDict [])])))
            new_state)
     = Ok (PyDict [("AirportResource", PyDict [])]).
Proof.
  split; [reflexivity|]. split; [world_answers|].
  apply (X6_pass_through repr_plain (GetAirport "FRA")
           (world (json_reply 200 "OK" (PyDict [("AirportResource", PyDict [])])))
           new_state
           (json_reply 200 "OK" (PyDict [("AirportResource", PyDict [])])));
    [reflexivity|world_answers|reflexivity|reflexivity].
Defined.

Lemma X7_witness :
  delivers repr_plain
    (world (json_reply 200 "OK"
              (flights_payload (PyList [PyDict sample_flight; PyDict []]))))
    new_state (route_endpoint "HAM" "JFK" "2026-02-28")
    (flights_payload (PyList [PyDict sample_flight; PyDict []]))
  /\ Flight_field (flights_payload (PyList [PyDict sample_flight; PyDict []]))
     = Found (PyList [PyDict sample_flight; PyDict []])
  /\ forallb is_route_flight [PyDict sample_flight; PyDict []] = true
  /\ fst (get_flight_status_by_route repr_plain "HAM" "JFK" "2026-02-28"
            (world (json_reply 200 "OK"
                      (flights_payload (PyList [PyDict sample_flight; PyDict []]))))
            new_state)
     = Ok (PyDict
             [("flights",
               PyList (map (route_entry_of repr_plain)
                         [PyDict sample_flight; PyDict []]));
              ("count", PyInt 2)]).
Proof.
  split; [world_delivers|]. split; [reflexivity|]. split; [reflexivity|].
  apply (X7_route_entries repr_plain
           (world (json_reply 200 "OK"
                     (flights_payload (PyList [PyDict sample_flight; PyDict []]))))
           new_state "HAM" "JFK" "2026-02-28"
           (flights_payload (PyList [PyDict sample_flight; PyDict []]))
           [PyDict sample_flight; PyDict []]);
    [world_delivers|reflexivity|reflexivity].
Defined.

Lemma X9_witness :
  delivers repr_plain
    (world (json_reply 200 "OK" (flights_payload (PyDict sample_flight))))
    new_state (flight_status_endpoint "LH456" "2026-02-28")
    (flights_payload (PyDict sample_flight))
  /\ first_flight (PyDict sample_flight) = Some (PyDict sample_flight)
  /\ status_flight_shape sample_flight = true
  /\ fst (get_flight_status repr_plain "LH456" "2026-02-28"
            (world (json_reply 200 "OK" (flights_payload (PyDict sample_flight))))
            new_state)
     = Ok (PyDict sample_record).
Proof.
  split; [world_delivers|]. split; [reflexivity|]. split; [reflexivity|].
  apply (X9_status_record repr_plain
           (world (json_reply 200 "OK" (flights_payload (PyDict sample_flight))))
           new_state "LH456" "2026-02-28"
           (flights_payload (PyDict sample_flight)) (PyDict sample_flight)
           sample_flight);
    [world_delivers|reflexivity|reflexivity|reflexivity].
Defined.

Lemma X10_witness :
  first_flight (PyList [PyDict sample_flight])
  = first_flight (PyList [PyDict sample_flight; PyStr "not a flight"])
  /\ (_parse_flight_status repr_plain
        (flights_payload (PyList [PyDict sample_flight]))
      = _parse_flight_status repr_plain
          (flights_payload (PyList [PyDict sample_flight; PyStr "not a flight"]))
      \/ exists e,
           _parse_flight_status repr_plain
             (flights_payload (PyList [PyDict sample_flight]))
           = Ok (parse_failure repr_plain e
                   (flights_payload (PyList [PyDict sample_flight])))
           /\ _parse_flight_status repr_plain
                (flights_payload
                   (PyList [PyDict sample_flight; PyStr "not a flight"]))
              = Ok (parse_failure repr_plain e
                      (flights_payload
                         (PyList [PyDict sample_flight; PyStr "not a flight"])))).
Proof.
  split; [reflexivity|].
  apply (X10_first_flight_only repr_plain
           (flights_payload (PyList [PyDict sample_flight]))
           (flights_payload (PyList [PyDict sample_flight; PyStr "not a flight"]))
           (PyList [PyDict sample_flight])
           (PyList [PyDict sample_flight; PyStr "not a flight"]));
    reflexivity.
Defined.

Lemma X11_witness :
  _parse_flight_status repr_plain (flights_payload flight_with_list_code)
  = Ok (PyDict
          [("error",
            PyStr "Failed to parse flight status: unhashable type: 'list'");
           ("raw", flights_payload flight_with_list_code)])
  /\ exists flights flight,
       Flight_field (flights_payload flight_with_list_code) = Found flights
       /\ first_flight flights = Some (PyDict flight)
       /\ unhashable (status_code_of flight) = true
       /\ PyDict
            [("error",
              PyStr "Failed to parse flight status: unhashable type: 'list'");
             ("raw", flights_payload flight_with_list_code)]
          = parse_failure repr_plain
              (unhashable_error (status_code_of flight))
              (flights_payload flight_with_list_code).
Proof.
  split; [reflexivity|].
  apply (X11_raw_means_unhashable_code repr_plain
           (flights_payload flight_with_list_code));
    [reflexivity|discriminate].
Defined.

Lemma X12_witness :
  str_truthy None = false
  /\ snd (check_flight_status repr_plain ascii_upper ascii_isdigit
            None None (Some "ABC123") (Some sample_context) "2026-02-28"
            (world not_found_reply) new_state)
     = new_state
  /\ fst (check_flight_status repr_plain ascii_upper ascii_isdigit
            None None (Some "ABC123") (Some sample_context) "2026-02-28"
            (world not_found_reply) new_state)
     = Ok (PyDict
             [("error",
               PyStr "Booking ID lookup requires Lufthansa Partner API access. Please provide the flight number directly.");
              ("hint",
               PyStr "You can find your flight number on your booking confirmation email.")],
           Some sample_context).
Proof.
  split; [reflexivity|].
  apply (X12_no_flight_number repr_plain ascii_upper ascii_isdigit
           (world not_found_reply) new_state None None (Some "ABC123")
           (Some sample_context) "2026-02-28").
  reflexivity.
Defined.

Lemma X14_witness :
  String.eqb "456" "" = false
  /\ fst (get_flight_status repr_plain
            (normalize_flight_number ascii_upper ascii_isdigit "456")
            (date_or_today None "2026-02-28")
            (world (json_reply 200 "OK" (flights_payload (PyDict sample_flight))))
            new_state)
     = Ok (PyDict sample_record)
  /\ dict_get "error" sample_record = None
  /\ exists state1,
       fst (check_flight_status repr_plain ascii_upper ascii_isdigit
              (Some "456") None None (Some sample_context) "2026-02-28"
              (world (json_reply 200 "OK"
                        (flights_payload (PyDict sample_flight))))
              new_state)
       = Ok (PyDict sample_record, Some state1)
       /\ dict_get "current_flight" state1 = Some (PyDict sample_record)
       /\ dict_get "flight_number" state1 = Some (PyStr "LH456")
       /\ dict_get "flight_date" state1 = Some (PyStr "2026-02-28")
       /\ dict_get "user" state1 = Some (PyStr "traveler").
Proof.
  split; [reflexivity|]. split; [reflexivity|]. split; [reflexivity|].
  destruct (X14_result_is_recorded repr_plain ascii_upper ascii_isdigit
              (world (json_reply 200 "OK" (flights_payload (PyDict sample_flight))))
              new_state "456" None None sample_context "2026-02-28"
              sample_record eq_refl eq_refl eq_refl)
    as (state1 & Hout & Hflight & Hnumber & Hdate & Hother).
  exists state1. split; [exact Hout|]. split; [exact Hflight|].
  split; [exact Hnumber|]. split; [exact Hdate|].
  rewrite (Hother "user"); [reflexivity|discriminate|discriminate|discriminate].
Defined.

Lemma X15_witness :
  fst (check_flight_status repr_plain ascii_upper ascii_isdigit
         (Some "lh 456") (Some "2026-02-28") None (Some sample_context)
         "2026-03-01" (world not_found_reply) new_state)
  = Ok (PyDict [("error", PyStr "Flight LH456 not found for 2026-02-28")],
        Some sample_context)
  /\ dict_get "error"
       [("error", PyStr "Flight LH456 not found for 2026-02-28")] <> None
  /\ Some sample_context = Some sample_context.
Proof.
  split; [reflexivity|]. split; [discriminate|].
  apply (X15_failure_is_not_recorded repr_plain ascii_upper ascii_isdigit
           (world not_found_reply) new_state
           (Some "lh 456") (Some "2026-02-28") None (Some sample_context)
           (Some sample_context) "2026-03-01"
           [("error", PyStr "Flight LH456 not found for 2026-02-28")]);
    [reflexivity|discriminate].
Defined.

Lemma X16_witness :
  http_error_msg not_found_reply
  = Some "404 Client Error: Not Found for url: https://api.lufthansa.com/v1"
  /\ answers repr_plain (world not_found_reply) new_state "GET"
       (arrivals_endpoint (ascii_strip (ascii_upper " fra "))
          (date_or_today None "2026-02-28T10:00"))
       (limit_params 10) not_found_reply
  /\ fst (get_airport_arrivals repr_plain ascii_upper ascii_strip
            " fra " None 10 "2026-02-28T10:00" (world not_found_reply) new_state)
     = Ok (PyDict
             [("error",
               PyStr "Failed to get arrivals: 404 Client Error: Not Found for url: https://api.lufthansa.com/v1")])
  /\ answers repr_plain (world not_found_reply) new_state "GET"
       (departures_endpoint (ascii_strip (ascii_upper " fra "))
          (date_or_today None "2026-02-28T10:00"))
       (limit_params 10) not_found_reply
  /\ fst (get_airport_departures repr_plain ascii_upper ascii_strip
            " fra " None 10 "2026-02-28T10:00" (world not_found_reply) new_state)
     = Ok (PyDict
             [("error",
               PyStr "Failed to get departures: 404 Client Error: Not Found for url: https://api.lufthansa.com/v1")]).
Proof.
  split; [reflexivity|].
  destruct (X16_airport_tools_on_error_status repr_plain ascii_upper ascii_strip
              (world not_found_reply) new_state " fra " None 10
              "2026-02-28T10:00" not_found_reply
              "404 Client Error: Not Found for url: https://api.lufthansa.com/v1"
              eq_refl) as [Harrivals Hdepartures].
  split; [world_answers|]. split; [apply Harrivals; world_answers|].
  split; [world_answers|]. apply Hdepartures; world_answers.
Defined.

Lemma X17_witness :
  String.eqb "lh 456" "" = false
  /\ answers repr_plain (world not_found_reply) new_state "GET"
       (flight_status_endpoint
          (normalize_flight_number ascii_upper ascii_isdigit "lh 456")
          (date_or_today None "2026-02-28"))
       None not_found_reply
  /\ status_code not_found_reply = 404
  /\ fst (check_flight_status repr_plain ascii_upper ascii_isdigit
            (Some "lh 456") None None (Some sample_context) "2026-02-28"
            (world not_found_reply) new_state)
     = Ok (PyDict [("error", PyStr "Flight LH456 not found for 2026-02-28")],
           Some sample_context)
  /\ fst (get_flight_details repr_plain ascii_upper ascii_isdigit
            "lh 456" None "2026-02-28" (world not_found_reply) new_state)
     = Ok (PyDict [("error", PyStr "Flight LH456 not found for 2026-02-28")]).
Proof.
  split; [reflexivity|]. split; [world_answers|]. split; [reflexivity|].
  apply (X17_flight_tools_on_404 repr_plain ascii_upper ascii_isdigit
           (world not_found_reply) new_state "lh 456" None None
           (Some sample_context) "2026-02-28" not_found_reply);
    [reflexivity|world_answers|reflexivity].
Defined.

Lemma X18_witness :
  String.eqb "LH456" "" = false
  /\ delivers repr_plain
       (world (json_reply 200 "OK" (flights_payload flight_with_bare_time)))
       new_state
       (flight_status_endpoint
          (normalize_flight_number ascii_upper ascii_isdigit "LH456")
          (date_or_today (Some "2026-02-28") "2026-03-01"))
       (flights_payload flight_with_bare_time)
  /\ _parse_flight_status repr_plain (flights_payload flight_with_bare_time)
     = Raise (AttributeError "'str' object has no attribute 'get'")
  /\ fst (check_flight_status repr_plain ascii_upper ascii_isdigit
            (Some "LH456") (Some "2026-02-28") None (Some sample_context)
            "2026-03-01"
            (world (json_reply 200 "OK" (flights_payload flight_with_bare_time)))
            new_state)
     = Ok (PyDict
             [("error",
               PyStr "Failed to fetch flight status: 'str' object has no attribute 'get'")],
           Some sample_context)
  /\ fst (get_flight_details repr_plain ascii_upper ascii_isdigit
            "LH456" (Some "2026-02-28") "2026-03-01"
            (world (json_reply 200 "OK" (flights_payload flight_with_bare_time)))
            new_state)
     = Ok (PyDict
             [("error",
               PyStr "Failed to get flight details: 'str' object has no attribute 'get'")]).
Proof.
  split; [reflexivity|]. split; [world_delivers|]. split; [reflexivity|].
  apply (X18_flight_tools_on_parse_failure repr_plain ascii_upper ascii_isdigit
           (world (json_reply 200 "OK" (flights_payload flight_with_bare_time)))
           new_state "LH456" (Some "2026-02-28") None (Some sample_context)
           "2026-03-01" (flights_payload flight_with_bare_time)
           (AttributeError "'str' object has no attribute 'get'"));
    [reflexivity|world_delivers|reflexivity].
Defined.

Lemma X21_witness :
  truthy (_access_token (self holding_state)) = true
  /\ (forall n,
        (clock_reads holding_state <= n
         < clock_reads holding_state
           + List.length [GetAirport "FRA"; GetFlightStatus "LH456" "2026-02-28"])%nat ->
        time_time (world not_found_reply) n
        < _token_expires_at (self holding_state) - 60)
  /\ sent (calls repr_plain
             [GetAirport "FRA"; GetFlightStatus "LH456" "2026-02-28"]
             (world not_found_reply) holding_state)
     = [data_request repr_plain sample_client "GET" "/references/airports/FRA"
          None (PyStr "abc");
        data_request repr_plain sample_client "GET"
          "/operations/flightstatus/LH456/2026-02-28" None (PyStr "abc")].
Proof.
  assert (forall n,
            (clock_reads holding_state <= n
             < clock_reads holding_state
               + List.length [GetAirport "FRA";
                              GetFlightStatus "LH456" "2026-02-28"])%nat ->
            time_time (world not_found_reply) n
            < _token_expires_at (self holding_state) - 60) as Hclock
    by (intros n Hn; change (1000 + Z.of_nat n < 37000 - 60);
        change (0 <= n < 2)%nat in Hn; lia).
  split; [reflexivity|]. split; [exact Hclock|].
  exact (proj1 (X21_no_refresh_while_fresh repr_plain
                  [GetAirport "FRA"; GetFlightStatus "LH456" "2026-02-28"]
                  (world not_found_reply) holding_state eq_refl Hclock)).
Defined.

Lemma X22_witness :
  delivers repr_plain (world (json_reply 200 "OK" (flights_payload PyNone)))
    new_state (route_endpoint "HAM" "JFK" "2026-02-28") (flights_payload PyNone)
  /\ (Flight_field (flights_payload PyNone) = Missing
      \/ exists f, Flight_field (flights_payload PyNone) = Found f
                   /\ truthy f = false)
  /\ fst (get_flight_status_by_route repr_plain "HAM" "JFK" "2026-02-28"
            (world (json_reply 200 "OK" (flights_payload PyNone))) new_state)
     = Ok (PyDict [("flights", PyList []); ("count", PyInt 0)]).
Proof.
  assert (Flight_field (flights_payload PyNone) = Missing
          \/ exists f, Flight_field (flights_payload PyNone) = Found f
                       /\ truthy f = false) as Hfield
    by (right; exists PyNone; split; reflexivity).
  split; [world_delivers|]. split; [exact Hfield|].
  apply (X22_route_without_flights repr_plain
           (world (json_reply 200 "OK" (flights_payload PyNone))) new_state
           "HAM" "JFK" "2026-02-28" (flights_payload PyNone));
    [world_delivers|exact Hfield].
Defined.
